(** * cryptobot: the conversation state machine of [bot.py]

    A shallow embedding of the Telegram price bot: the HTTP client
    functions, the menu renderers, the callback/message handlers and the
    conversation dispatch configured in [main], followed by the properties
    stated about them.

    Conventions of the embedding.
    - A Python [str] is a [string] (its UTF-8 bytes).  [upper], [lower] and
      [capitalize] act on ASCII letters and leave other bytes alone.
    - A decoded JSON document is a [json] value; a Python [dict] with string
      keys is an association list in insertion order.
    - A JSON integer is a Python [int] ([Z]); a JSON real is a Python
      [float], modelled by [spec_float] at binary64.
    - Handlers run in the monad [M]: they thread the per-user store
      (user data, messages sent to the chat, log lines) and may raise.
    - The remote service is an oracle [net] from requests to outcomes. *)

From Stdlib Require Import ZArith NArith List String Ascii Bool Lia.
From Stdlib Require Import Floats.SpecFloat DecimalString.
Import ListNotations.
Local Open Scope string_scope.

Set Implicit Arguments.

(** ** Python strings *)

Module PyStr.

Definition is_upper (c : ascii) : bool :=
  let n := nat_of_ascii c in (65 <=? n)%nat && (n <=? 90)%nat.

Definition is_lower (c : ascii) : bool :=
  let n := nat_of_ascii c in (97 <=? n)%nat && (n <=? 122)%nat.

Definition upper_char (c : ascii) : ascii :=
  if is_lower c then ascii_of_nat (nat_of_ascii c - 32) else c.

Definition lower_char (c : ascii) : ascii :=
  if is_upper c then ascii_of_nat (nat_of_ascii c + 32) else c.

Fixpoint map_chars (f : ascii -> ascii) (s : string) : string :=
  match s with
  | EmptyString => EmptyString
  | String c t => String (f c) (map_chars f t)
  end.

(** [s.upper()], [s.lower()], exact on ASCII text; a letter outside ASCII
    is left as it is. *)
Definition upper : string -> string := map_chars upper_char.
Definition lower : string -> string := map_chars lower_char.

(** [s.capitalize()]: first character upper-cased, the rest lower-cased. *)
Definition capitalize (s : string) : string :=
  match s with
  | EmptyString => EmptyString
  | String c t => String (upper_char c) (lower t)
  end.

(** [s.startswith(p)] *)
Definition startswith (s p : string) : bool := prefix p s.

(** [s.split(sep)] for a one-character separator: never empty, one more
    field than there are separators. *)
Fixpoint split (sep : ascii) (s : string) : list string :=
  match s with
  | EmptyString => [EmptyString]
  | String c t =>
      if Ascii.eqb c sep then EmptyString :: split sep t
      else match split sep t with
           | [] => [String c EmptyString]
           | f :: fs => String c f :: fs
           end
  end.

(** Number of positions of [hay] at which [needle] occurs. *)
Fixpoint occurrences (needle hay : string) : nat :=
  match hay with
  | EmptyString => 0
  | String _ t =>
      ((if prefix needle hay then 1 else 0) + occurrences needle t)%nat
  end.

(** [needle in hay] *)
Fixpoint contains (needle hay : string) : bool :=
  prefix needle hay ||
  match hay with
  | EmptyString => false
  | String _ t => contains needle t
  end.

(** Every character of [s] satisfies [p]. *)
Fixpoint all_chars (p : ascii -> bool) (s : string) : bool :=
  match s with
  | EmptyString => true
  | String c t => p c && all_chars p t
  end.

(** Not an ASCII capital letter. *)
Definition plain (c : ascii) : bool := negb (is_upper c).

(** No ASCII capital letter in [s]. *)
Definition no_upper (s : string) : bool := all_chars plain s.

(** No occurrence of the character [c] in [s]. *)
Definition free_of (c : ascii) (s : string) : bool :=
  all_chars (fun x => negb (Ascii.eqb x c)) s.

End PyStr.

(** ** Python values and exceptions *)

#[warnings="-register-all"]
Inductive json : Type :=
| JNull
| JBool (b : bool)
| JInt (z : Z)
| JFloat (f : spec_float)
| JStr (s : string)
| JList (l : list json)
| JObj (d : list (string * json)).

(** The exception classes the program can meet.  [ConnectionError],
    [HTTPError] are subclasses of [requests.RequestException]. *)
Inductive exn : Type :=
| ConnectionError
| HTTPError
| JSONDecodeError
| AttributeError
| TypeError
| ValueError
| OverflowError
| IndexError.

Inductive result (A : Type) : Type :=
| Ok (a : A)
| Raise (e : exn).
Arguments Ok {A} a.
Arguments Raise {A} e.

Definition rbind {A B} (r : result A) (k : A -> result B) : result B :=
  match r with
  | Ok a => k a
  | Raise e => Raise e
  end.

(** Dictionaries with string keys. *)
Section Dict.
Variable V : Type.

Definition dict := list (string * V).

Fixpoint dict_find (d : dict) (k : string) : option V :=
  match d with
  | [] => None
  | (k', v) :: d' => if String.eqb k' k then Some v else dict_find d' k
  end.

(** [d.get(k, default)] *)
Definition dict_get (d : dict) (k : string) (default : V) : V :=
  match dict_find d k with
  | Some v => v
  | None => default
  end.

(** [d[k] = v] *)
Fixpoint dict_set (d : dict) (k : string) (v : V) : dict :=
  match d with
  | [] => [(k, v)]
  | (k', v') :: d' =>
      if String.eqb k' k then (k', v) :: d' else (k', v') :: dict_set d' k v
  end.
End Dict.

Module Py.

(** [bool(v)] *)
Definition truthy (v : json) : bool :=
  match v with
  | JNull => false
  | JBool b => b
  | JInt z => negb (z =? 0)%Z
  | JFloat (S754_zero _) => false
  | JFloat _ => true
  | JStr s => negb (String.eqb s "")
  | JList l => match l with [] => false | _ => true end
  | JObj d => match d with [] => false | _ => true end
  end.

(** [v.get(k, default)]: only a dict has the method. *)
Definition get (v : json) (k : string) (default : json) : result json :=
  match v with
  | JObj d => Ok (dict_get d k default)
  | _ => Raise AttributeError
  end.

(** [len(v)] *)
Definition len (v : json) : result nat :=
  match v with
  | JList l => Ok (List.length l)
  | JStr s => Ok (String.length s)
  | JObj d => Ok (List.length d)
  | _ => Raise TypeError
  end.

Definition chars (s : string) : list json :=
  map (fun c => JStr (String c EmptyString)) (list_ascii_of_string s).

(** [v.upper()]: only a str has the method. *)
Definition upper (v : json) : result string :=
  match v with
  | JStr s => Ok (PyStr.upper s)
  | _ => Raise AttributeError
  end.

(** [range(0, stop, step)] for a positive step. *)
Definition range0 (stop step : nat) : list nat :=
  map (fun k => k * step) (seq 0 ((stop + step - 1) / step)).

(** [v > 0] and [v < 0]; [bool] is a subclass of [int]. *)
Definition gt0 (v : json) : result bool :=
  match v with
  | JInt z => Ok (0 <? z)%Z
  | JBool b => Ok b
  | JFloat f => Ok (SFltb (S754_zero false) f)
  | _ => Raise TypeError
  end.

Definition lt0 (v : json) : result bool :=
  match v with
  | JInt z => Ok (z <? 0)%Z
  | JBool _ => Ok false
  | JFloat f => Ok (SFltb f (S754_zero false))
  | _ => Raise TypeError
  end.

(** [abs(v)] *)
Definition abs (v : json) : result json :=
  match v with
  | JInt z => Ok (JInt (Z.abs z))
  | JBool b => Ok (JInt (if b then 1 else 0))
  | JFloat f => Ok (JFloat (SFabs f))
  | _ => Raise TypeError
  end.

(** [v[i:j]]; a dict cannot be sliced ([TypeError] before Python 3.12,
    [KeyError] from it on: neither is a [RequestException]). *)
Definition slice (v : json) (i j : nat) : result json :=
  match v with
  | JList l => Ok (JList (firstn (j - i) (skipn i l)))
  | JStr s => Ok (JStr (substring i (j - i) s))
  | _ => Raise TypeError
  end.

(** The items a [for] loop over [v] visits. *)
Definition iter (v : json) : result (list json) :=
  match v with
  | JList l => Ok l
  | JStr s => Ok (chars s)
  | JObj d => Ok (map (fun kv => JStr (fst kv)) d)
  | _ => Raise TypeError
  end.

(** [l[i]] *)
Definition index {A} (l : list A) (i : nat) : result A :=
  match nth_error l i with
  | Some a => Ok a
  | None => Raise IndexError
  end.

(** A loop body run over a list, stopping at the first exception. *)
Fixpoint for_each {A B} (f : A -> result B) (l : list A) : result (list B) :=
  match l with
  | [] => Ok []
  | a :: t =>
      rbind (f a) (fun b => rbind (for_each f t) (fun bs => Ok (b :: bs)))
  end.

End Py.

(** ** Fixed-point formatting of numbers: the format specs [,.2f], [.2f]
    and [,.0f] *)

Module Fmt.

Definition digits (n : N) : list ascii :=
  list_ascii_of_string (NilZero.string_of_uint (N.to_uint n)).

(** Walks the digits from the least significant one; [k] digits are still
    to come before the next separator. *)
Fixpoint sep3 (k : nat) (l : list ascii) : list ascii :=
  match l with
  | [] => []
  | c :: t =>
      match k with
      | O => ","%char :: c :: sep3 2 t
      | S k' => c :: sep3 k' t
      end
  end.

(** Thousands separators, as the [,] option inserts them. *)
Definition group3 (ds : list ascii) : list ascii := rev (sep3 3 (rev ds)).

(** [n] written with at least [d] digits. *)
Definition pad (d : nat) (ds : list ascii) : list ascii :=
  repeat "0"%char (d - List.length ds) ++ ds.

(** [q] is the magnitude scaled by [10^d] and rounded to an integer. *)
Definition fixed (neg : bool) (q : N) (d : nat) (grouping : bool) : string :=
  let scale := (10 ^ N.of_nat d)%N in
  let ip := digits (q / scale) in
  let ip := if grouping then group3 ip else ip in
  let fp := match d with
            | O => []
            | S _ => "."%char :: pad d (digits (q mod scale))
            end in
  string_of_list_ascii ((if neg then ["-"%char] else []) ++ ip ++ fp).

(** [m * 2^e * 10^d] rounded to the nearest integer, ties to even: the
    decimal digits of a binary float are those of its exact value. *)
Definition scaled (m : positive) (e : Z) (d : nat) : N :=
  let num := (Npos m * 10 ^ N.of_nat d)%N in
  match e with
  | Z0 => num
  | Zpos p => (num * 2 ^ Npos p)%N
  | Zneg p =>
      let den := (2 ^ Npos p)%N in
      let q := (num / den)%N in
      let r := (num mod den)%N in
      match (2 * r ?= den)%N with
      | Lt => q
      | Gt => N.succ q
      | Eq => if N.even q then q else N.succ q
      end
  end.

Definition float (f : spec_float) (d : nat) (grouping : bool) : string :=
  match f with
  | S754_nan => "nan"
  | S754_infinity s => if s then "-inf" else "inf"
  | S754_zero s => fixed s 0 d grouping
  | S754_finite s m e => fixed s (scaled m e d) d grouping
  end.

(** [float(z)]: nearest binary64 value, [OverflowError] beyond its range. *)
Definition float_of_int (z : Z) : result spec_float :=
  match binary_normalize 53 1024 z 0 false with
  | S754_infinity _ => Raise OverflowError
  | f => Ok f
  end.

(** [format(v, spec)] for a spec of presentation type [f].  An [int] is
    converted to [float] first; a [str] rejects the spec with
    [ValueError], the other types with [TypeError]. *)
Definition number (v : json) (d : nat) (grouping : bool) : result string :=
  match v with
  | JFloat f => Ok (float f d grouping)
  | JInt z => rbind (float_of_int z) (fun f => Ok (float f d grouping))
  | JBool b =>
      rbind (float_of_int (if b then 1 else 0))
            (fun f => Ok (float f d grouping))
  | JStr _ => Raise ValueError
  | _ => Raise TypeError
  end.

End Fmt.

(** ** The chat, the store and the handler monad *)

(** Conversation states: [MAIN_MENU, CHOOSING_CRYPTO, CHOOSING_CURRENCY,
    TYPING_SEARCH = range(4)]. *)
Inductive conv_state : Type :=
| MAIN_MENU
| CHOOSING_CRYPTO
| CHOOSING_CURRENCY
| TYPING_SEARCH.

Definition state_index (s : conv_state) : nat :=
  match s with
  | MAIN_MENU => 0
  | CHOOSING_CRYPTO => 1
  | CHOOSING_CURRENCY => 2
  | TYPING_SEARCH => 3
  end.

Record InlineKeyboardButton : Type :=
  { text : string; callback_data : string }.

Definition InlineKeyboardMarkup := list (list InlineKeyboardButton).

(** What a handler does to the chat. *)
Inductive action : Type :=
| Answer
| EditMessageText (body : string) (reply_markup : option InlineKeyboardMarkup)
| ReplyText (body : string) (reply_markup : option InlineKeyboardMarkup).

(** An incoming update: a command message for this bot, a plain text
    message, or a press on an inline button carrying [data].  [name] is the
    command word as it was typed, without the slash, the [@bot] suffix and
    the arguments. *)
Inductive update : Type :=
| Command (name : string)
| TextMessage (body : string)
| CallbackQuery (data : string).

Record store : Type :=
  { user_data : dict string;
    sent : list action;
    logged : list (string * exn) }.

Definition M (A : Type) : Type := store -> store * result A.

Definition ret {A} (a : A) : M A := fun s => (s, Ok a).

Definition raise {A} (e : exn) : M A := fun s => (s, Raise e).

Definition bind {A B} (m : M A) (k : A -> M B) : M B :=
  fun s =>
    match m s with
    | (s', Ok a) => k a s'
    | (s', Raise e) => (s', Raise e)
    end.

Definition lift {A} (r : result A) : M A := fun s => (s, r).

Notation "x <- m ;; k" := (bind m (fun x => k))
  (at level 61, m at next level, right associativity).
Notation "m ;;; k" := (bind m (fun _ => k))
  (at level 61, right associativity).

Definition send (a : action) : M unit :=
  fun s =>
    ({| user_data := user_data s; sent := sent s ++ [a]; logged := logged s |},
     Ok tt).

Definition log_error (msg : string) (e : exn) : M unit :=
  fun s =>
    ({| user_data := user_data s; sent := sent s;
        logged := logged s ++ [(msg, e)] |},
     Ok tt).

Definition get_user_data : M (dict string) := fun s => (s, Ok (user_data s)).

Definition set_user_data (k v : string) : M unit :=
  fun s =>
    ({| user_data := dict_set (user_data s) k v; sent := sent s;
        logged := logged s |},
     Ok tt).

(** [update.callback_query.edit_message_text(...)]: [callback_query] is
    [None] unless the update is a button press. *)
Definition edit_message_text (u : update) (body : string)
           (markup : option InlineKeyboardMarkup) : M unit :=
  match u with
  | CallbackQuery _ => send (EditMessageText body markup)
  | _ => raise AttributeError
  end.

(** [update.message.reply_text(...)]: [message] is [None] for a button
    press. *)
Definition reply_text (u : update) (body : string)
           (markup : option InlineKeyboardMarkup) : M unit :=
  match u with
  | CallbackQuery _ => raise AttributeError
  | _ => send (ReplyText body markup)
  end.

(** ** The remote service *)

Record request : Type :=
  { url : string; params : dict json }.

(** A request either fails in transport or yields a response with a status
    code and a body, which decodes as JSON or does not. *)
Inductive http_outcome : Type :=
| Unreachable
| Response (status_code : Z) (body : option json).

(** ** The program *)

Definition COINGECKO_API_URL : string := "https://api.coingecko.com/api/v3".

Definition SUPPORTED_CURRENCIES : list string :=
  ["usd"; "eur"; "gbp"; "jpy"; "aud"; "cad"; "chf"; "cny"; "inr"].

Section Bot.

(** The remote service, as seen by [requests.get]. *)
Variable net : request -> http_outcome.

(** Whether the error [response.json()] raises on an undecodable body is
    a [requests.RequestException]; it is from requests 2.27 on. *)
Variable json_error_is_request_exception : bool.

(** [str(v)] of a value that is not a [str]. *)
Variable py_repr : json -> string.

Definition is_RequestException (e : exn) : bool :=
  match e with
  | ConnectionError | HTTPError => true
  | JSONDecodeError => json_error_is_request_exception
  | _ => false
  end.

(** [try: body except requests.RequestException as e: handler] *)
Definition try_except {A} (body : M A) (handler : exn -> M A) : M A :=
  fun s =>
    match body s with
    | (s', Raise e) =>
        if is_RequestException e then handler e s' else (s', Raise e)
    | r => r
    end.

Record response : Type :=
  { status_code : Z; body_json : option json }.

Definition requests_get (u : string) (ps : dict json) : result response :=
  match net {| url := u; params := ps |} with
  | Unreachable => Raise ConnectionError
  | Response c b => Ok {| status_code := c; body_json := b |}
  end.

(** [response.raise_for_status()]: raises for 4xx and 5xx. *)
Definition raise_for_status (r : response) : result unit :=
  if ((400 <=? status_code r) && (status_code r <? 600))%Z
  then Raise HTTPError else Ok tt.

(** [response.json()] *)
Definition response_json (r : response) : result json :=
  match body_json r with
  | Some j => Ok j
  | None => Raise JSONDecodeError
  end.

(** [f"{v}"] *)
Definition py_str (v : json) : string :=
  match v with
  | JStr s => s
  | _ => py_repr v
  end.

(** *** API functions *)

Definition get_top_cryptos (limit : Z) : M json :=
  try_except
    (lift
       (rbind (requests_get (COINGECKO_API_URL ++ "/coins/markets")
                 [("vs_currency", JStr "usd");
                  ("order", JStr "market_cap_desc");
                  ("per_page", JInt limit);
                  ("page", JInt 1);
                  ("sparkline", JBool false)])
          (fun response =>
             rbind (raise_for_status response) (fun _ =>
             response_json response))))
    (fun e =>
       log_error "Error fetching top cryptos" e ;;;
       ret (JList [])).

Definition get_trending_cryptos : M json :=
  try_except
    (lift
       (rbind (requests_get (COINGECKO_API_URL ++ "/search/trending") [])
          (fun response =>
             rbind (raise_for_status response) (fun _ =>
             rbind (response_json response) (fun data =>
             Py.get data "coins" (JList []))))))
    (fun e =>
       log_error "Error fetching trending cryptos" e ;;;
       ret (JList [])).

Definition get_crypto_details (crypto_id currency : string) : M json :=
  try_except
    (lift
       (rbind (requests_get (COINGECKO_API_URL ++ "/simple/price")
                 [("ids", JStr crypto_id);
                  ("vs_currencies", JStr currency);
                  ("include_24hr_change", JStr "true");
                  ("include_market_cap", JStr "true")])
          (fun response =>
             rbind (raise_for_status response) (fun _ =>
             rbind (response_json response) (fun data =>
             Py.get data crypto_id (JObj []))))))
    (fun e =>
       log_error ("Error fetching crypto details for " ++ crypto_id) e ;;;
       ret (JObj [])).

(** *** Menu functions *)

Definition back_row : list InlineKeyboardButton :=
  [{| text := "Back to Main Menu"; callback_data := "main_menu" |}].

Definition main_menu_keyboard : InlineKeyboardMarkup :=
  [[{| text := "Top 100 Cryptocurrencies"; callback_data := "top100" |}];
   [{| text := "Trending Cryptocurrencies"; callback_data := "trending" |}];
   [{| text := "Search Cryptocurrency"; callback_data := "search" |}]].

Definition show_main_menu (u : update) : M unit :=
  let body := "Welcome to the Crypto Price Bot! What would you like to do?" in
  match u with
  | CallbackQuery _ => edit_message_text u body (Some main_menu_keyboard)
  | _ => reply_text u body (Some main_menu_keyboard)
  end.

(** The button of one entry of the list. *)
Definition crypto_button (crypto : json) : result InlineKeyboardButton :=
  rbind (Py.get crypto "name" (JStr "Unknown")) (fun name =>
  rbind (Py.get crypto "symbol" (JStr "Unknown")) (fun symbol =>
  rbind (Py.get crypto "id" (JStr "unknown")) (fun crypto_id =>
  rbind (Py.upper symbol) (fun symbol_upper =>
  Ok {| text := py_str name ++ " (" ++ symbol_upper ++ ")";
        callback_data := "crypto:" ++ py_str crypto_id |})))).

(** The keyboard [show_crypto_list] builds: one row per step of
    [range(0, len(cryptos), 2)], then the back row. *)
Definition crypto_list_keyboard (cryptos : json)
  : result InlineKeyboardMarkup :=
  rbind (Py.len cryptos) (fun n =>
  rbind (Py.for_each
           (fun i =>
              rbind (Py.slice cryptos i (i + 2)) (fun part =>
              rbind (Py.iter part) (fun items =>
              Py.for_each crypto_button items)))
           (Py.range0 n 2))
        (fun keyboard => Ok (keyboard ++ [back_row])%list)).

Definition show_crypto_list (u : update) (cryptos : json) (title : string)
  : M unit :=
  reply_markup <- lift (crypto_list_keyboard cryptos) ;;
  match u with
  | CallbackQuery _ => edit_message_text u title (Some reply_markup)
  | _ => reply_text u title (Some reply_markup)
  end.

Definition currency_keyboard : InlineKeyboardMarkup :=
  (map (fun currency =>
          [{| text := PyStr.upper currency;
              callback_data := "currency:" ++ currency |}])
       SUPPORTED_CURRENCIES
   ++ [back_row])%list.

Definition show_currency_options (u : update) : M unit :=
  edit_message_text u "Choose a currency:" (Some currency_keyboard).

(** *** Coin details *)

Definition glyph_up : string := "🔺".
Definition glyph_down : string := "🔻".
Definition glyph_flat : string := "➖".

(** ['🔺' if change_24h > 0 else '🔻' if change_24h < 0 else '➖'] *)
Definition change_symbol_of (change_24h : json) : result string :=
  rbind (Py.gt0 change_24h) (fun up =>
  if up then Ok glyph_up
  else rbind (Py.lt0 change_24h) (fun down =>
       if down then Ok glyph_down else Ok glyph_flat)).

(** The text [show_crypto_details] sends for the looked-up [details]. *)
Definition details_message (crypto_id currency : string) (details : json)
  : result string :=
  if Py.truthy details then
    rbind (Py.get details currency (JStr "N/A")) (fun price =>
    rbind (Py.get details (currency ++ "_24h_change") (JStr "N/A"))
          (fun change_24h =>
    rbind (Py.get details (currency ++ "_market_cap") (JStr "N/A"))
          (fun market_cap =>
    rbind (change_symbol_of change_24h) (fun change_symbol =>
    rbind (Fmt.number price 2 true) (fun price_s =>
    rbind (Py.abs change_24h) (fun change_abs =>
    rbind (Fmt.number change_abs 2 false) (fun change_s =>
    rbind (Fmt.number market_cap 0 true) (fun market_cap_s =>
    Ok ("💰 " ++ PyStr.capitalize crypto_id
          ++ " (" ++ PyStr.upper currency ++ ")" ++ String "010" ""
        ++ "Price: " ++ price_s ++ " " ++ PyStr.upper currency
          ++ String "010" ""
        ++ "24h Change: " ++ change_symbol ++ " " ++ change_s ++ "%"
          ++ String "010" ""
        ++ "Market Cap: " ++ market_cap_s ++ " "
          ++ PyStr.upper currency)))))))))
  else
    Ok ("Sorry, I couldn't find the details for " ++ crypto_id ++ ".").

Definition show_crypto_details (u : update) (crypto_id currency : string)
  : M unit :=
  details <- get_crypto_details crypto_id currency ;;
  message <- lift (details_message crypto_id currency details) ;;
  edit_message_text u message (Some [back_row]).

(** *** Command handlers *)

Definition start (u : update) : M (option conv_state) :=
  show_main_menu u ;;;
  ret (Some MAIN_MENU).

Definition help_text : string :=
  "Welcome to the Crypto Price Bot!" ++ String "010" (String "010" "")
  ++ "Commands:" ++ String "010" ""
  ++ "/start - Show main menu" ++ String "010" ""
  ++ "/help - Show this help message" ++ String "010" (String "010" "")
  ++ "You can check prices of top cryptocurrencies, view trending coins, or search for a specific cryptocurrency.".

Definition help_command (u : update) : M (option conv_state) :=
  reply_text u help_text None ;;;
  ret None.

(** *** Callback query handler *)

Definition button_click (u : update) : M (option conv_state) :=
  match u with
  | CallbackQuery data =>
      send Answer ;;;
      if String.eqb data "main_menu" then
        show_main_menu u ;;;
        ret (Some MAIN_MENU)
      else if String.eqb data "top100" then
        edit_message_text u "Fetching top cryptocurrencies, please wait..."
                          None ;;;
        cryptos <- get_top_cryptos 100 ;;
        show_crypto_list u cryptos "Top 100 Cryptocurrencies:" ;;;
        ret (Some CHOOSING_CRYPTO)
      else if String.eqb data "trending" then
        edit_message_text u
          "Fetching trending cryptocurrencies, please wait..." None ;;;
        cryptos <- get_trending_cryptos ;;
        show_crypto_list u cryptos "Trending Cryptocurrencies:" ;;;
        ret (Some CHOOSING_CRYPTO)
      else if String.eqb data "search" then
        edit_message_text u
          "Please enter the name of the cryptocurrency you want to check:"
          None ;;;
        ret (Some TYPING_SEARCH)
      else if PyStr.startswith data "crypto:" then
        crypto <- lift (Py.index (PyStr.split ":" data) 1) ;;
        set_user_data "crypto" crypto ;;;
        show_currency_options u ;;;
        ret (Some CHOOSING_CURRENCY)
      else if PyStr.startswith data "currency:" then
        currency <- lift (Py.index (PyStr.split ":" data) 1) ;;
        ud <- get_user_data ;;
        let crypto_id := dict_get ud "crypto" "bitcoin" in
        show_crypto_details u crypto_id currency ;;;
        ret (Some MAIN_MENU)
      else
        ret None
  | _ => raise AttributeError
  end.

(** *** Message handler *)

Definition message_text (u : update) : result string :=
  match u with
  | Command name => Ok ("/" ++ name)
  | TextMessage body => Ok body
  | CallbackQuery _ => Raise AttributeError
  end.

Definition handle_message (u : update) : M (option conv_state) :=
  body <- lift (message_text u) ;;
  let user_input := PyStr.lower body in
  try_except
    (search_results <-
       lift (rbind (requests_get (COINGECKO_API_URL ++ "/search")
                      [("query", JStr user_input)])
                   response_json) ;;
     coins <- lift (Py.get search_results "coins" (JList [])) ;;
     if Py.truthy coins then
       first10 <- lift (Py.slice coins 0 10) ;;
       show_crypto_list u first10 "Search Results:" ;;;
       ret (Some CHOOSING_CRYPTO)
     else
       reply_text u
         "Sorry, I couldn't find any cryptocurrency matching your search."
         None ;;;
       show_main_menu u ;;;
       ret (Some MAIN_MENU))
    (fun e =>
       log_error "Error searching for cryptocurrency" e ;;;
       reply_text u
         "An error occurred while searching for the cryptocurrency." None ;;;
       show_main_menu u ;;;
       ret (Some MAIN_MENU)).

(** *** Error handler *)

Definition error (e : exn) : M unit :=
  log_error "Update caused error" e.

(** *** The conversation configured in [main] *)

(** The kinds of handler [main] registers. *)
Inductive handler_kind : Type :=
| CommandHandler (command : string)
| CallbackQueryHandler
| MessageHandler_TEXT_not_COMMAND.

(** Which updates a handler accepts.  A command handler compares the
    lower-cased command word with its own lower-cased command, so [/START]
    is [/start].  (No character outside ASCII lower-cases to a letter of
    [start] or [help], so lower-casing the ASCII letters decides these
    comparisons as [str.lower] does.) *)
Definition check_update (k : handler_kind) (u : update) : bool :=
  match k, u with
  | CommandHandler c, Command name =>
      String.eqb (PyStr.lower c) (PyStr.lower name)
  | CallbackQueryHandler, CallbackQuery _ => true
  | MessageHandler_TEXT_not_COMMAND, TextMessage _ => true
  | _, _ => false
  end.

Definition handler : Type :=
  (handler_kind * (update -> M (option conv_state)))%type.

Record ConversationHandler : Type :=
  { entry_points : list handler;
    states : conv_state -> list handler;
    fallbacks : list handler }.

Definition conv_handler : ConversationHandler :=
  {| entry_points := [(CommandHandler "start", start)];
     states := fun s =>
       match s with
       | MAIN_MENU => [(CallbackQueryHandler, button_click)]
       | CHOOSING_CRYPTO => [(CallbackQueryHandler, button_click)]
       | CHOOSING_CURRENCY => [(CallbackQueryHandler, button_click)]
       | TYPING_SEARCH => [(MessageHandler_TEXT_not_COMMAND, handle_message)]
       end;
     fallbacks := [(CommandHandler "start", start)] |}.

Definition first_match (hs : list handler) (u : update)
  : option (update -> M (option conv_state)) :=
  option_map snd (find (fun h => check_update (fst h) u) hs).

(** The handler the conversation picks: an entry point when no
    conversation is running, else a handler of the current state, else a
    fallback. *)
Definition select_handler (c : ConversationHandler)
           (current : option conv_state) (u : update)
  : option (update -> M (option conv_state)) :=
  match current with
  | None => first_match (entry_points c) u
  | Some s =>
      match first_match (states c s) u with
      | Some h => Some h
      | None => first_match (fallbacks c) u
      end
  end.

(** One user's conversation: its state ([None] before the first
    [/start]) and its store. *)
Record session : Type :=
  { state : option conv_state; mem : store }.

(** The application on one update.  The state a handler returns becomes
    the conversation's state; returning [None] keeps it; an exception goes
    to the error handler and keeps it too.  An update the conversation
    does not take is offered to the [/help] handler. *)
Definition process_update (ss : session) (u : update) : session :=
  match select_handler conv_handler (state ss) u with
  | Some h =>
      match h u (mem ss) with
      | (m', Ok (Some next)) => {| state := Some next; mem := m' |}
      | (m', Ok None) => {| state := state ss; mem := m' |}
      | (m', Raise e) => {| state := state ss; mem := fst (error e m') |}
      end
  | None =>
      if check_update (CommandHandler "help") u then
        match help_command u (mem ss) with
        | (m', Ok _) => {| state := state ss; mem := m' |}
        | (m', Raise e) => {| state := state ss; mem := fst (error e m') |}
        end
      else ss
  end.

Definition process_updates (ss : session) (us : list update) : session :=
  fold_left process_update us ss.

End Bot.

Definition empty_store : store :=
  {| user_data := []; sent := []; logged := [] |}.

Definition new_session : session :=
  {| state := None; mem := empty_store |}.

(** ** Specification vocabulary *)

(** The messages a user sees: everything sent but the bare acknowledgement
    of a button press. *)
Definition rendered (l : list action) : list action :=
  filter (fun a => match a with Answer => false | _ => true end) l.

(** The action that shows [body] with [markup] in answer to [u]: an edit of
    the menu message for a button press, a new message otherwise. *)
Definition render (u : update) (body : string)
           (markup : option InlineKeyboardMarkup) : action :=
  match u with
  | CallbackQuery _ => EditMessageText body markup
  | _ => ReplyText body markup
  end.

Definition add_sent (s : store) (l : list action) : store :=
  {| user_data := user_data s; sent := sent s ++ l; logged := logged s |}.

Definition add_logged (s : store) (l : list (string * exn)) : store :=
  {| user_data := user_data s; sent := sent s; logged := logged s ++ l |}.

(** The text of the main menu and of the not-found answer. *)
Definition welcome : string :=
  "Welcome to the Crypto Price Bot! What would you like to do?".

Definition not_found (crypto_id : string) : string :=
  "Sorry, I couldn't find the details for " ++ crypto_id ++ ".".

(** The request [get_crypto_details] sends. *)
Definition detail_request (crypto_id currency : string) : request :=
  {| url := COINGECKO_API_URL ++ "/simple/price";
     params := [("ids", JStr crypto_id);
                ("vs_currencies", JStr currency);
                ("include_24hr_change", JStr "true");
                ("include_market_cap", JStr "true")] |}.

(** A status code [raise_for_status] raises for. *)
Definition error_status (c : Z) : bool := ((400 <=? c) && (c <? 600))%Z.

(** A JSON number that the format specs of presentation type [f] accept:
    a float, or an integer within the range of float. *)
Definition is_number (v : json) : bool :=
  match v with
  | JFloat _ => true
  | JInt z => match Fmt.float_of_int z with Ok _ => true | Raise _ => false end
  | _ => false
  end.

(** The sign of a number; a NaN has none. *)
Definition number_sign (v : json) : option comparison :=
  match v with
  | JInt z => Some (z ?= 0)%Z
  | JFloat f => SFcompare f (S754_zero false)
  | _ => None
  end.

(** A coin summary as the list endpoints give it: an object whose [id] is a
    string and whose [name] and [symbol], when present, are strings. *)
Definition is_coin_summary (c : json) : bool :=
  match c with
  | JObj d =>
      match dict_find d "id" with Some (JStr _) => true | _ => false end
      && match dict_find d "name" with
         | Some (JStr _) | None => true
         | _ => false
         end
      && match dict_find d "symbol" with
         | Some (JStr _) | None => true
         | _ => false
         end
  | _ => false
  end.

Definition coin_id (c : json) : string :=
  match c with
  | JObj d => match dict_find d "id" with Some (JStr s) => s | _ => "" end
  | _ => ""
  end.

(** The button [crypto_button] makes of [c], when it makes one. *)
Definition button_of (repr : json -> string) (c : json)
  : InlineKeyboardButton :=
  match crypto_button repr c with
  | Ok b => b
  | Raise _ => {| text := ""; callback_data := "" |}
  end.

(** The text of a coin's details, from its formatted parts. *)
Definition detail_text (crypto_id currency price_s change_symbol change_s
                        market_cap_s : string) : string :=
  "💰 " ++ PyStr.capitalize crypto_id
    ++ " (" ++ PyStr.upper currency ++ ")" ++ String "010" ""
  ++ "Price: " ++ price_s ++ " " ++ PyStr.upper currency ++ String "010" ""
  ++ "24h Change: " ++ change_symbol ++ " " ++ change_s ++ "%"
    ++ String "010" ""
  ++ "Market Cap: " ++ market_cap_s ++ " " ++ PyStr.upper currency.

(** The three fields of a detail in [currency], when all are there. *)
Definition detail_fields (currency : string) (details : json)
  : option (json * json * json) :=
  match details with
  | JObj d =>
      match dict_find d currency,
            dict_find d (currency ++ "_24h_change"),
            dict_find d (currency ++ "_market_cap") with
      | Some price, Some change_24h, Some market_cap =>
          Some (price, change_24h, market_cap)
      | _, _, _ => None
      end
  | _ => None
  end.

(** The glyph that goes with a sign. *)
Definition glyph_of (sign : option comparison) : string :=
  match sign with
  | Some Gt => glyph_up
  | Some Lt => glyph_down
  | _ => glyph_flat
  end.

(** A list cut into rows of two, the last row shorter when the length is
    odd. *)
Fixpoint rows_of_two {A} (l : list A) : list (list A) :=
  match l with
  | [] => []
  | [a] => [[a]]
  | a :: b :: t => [a; b] :: rows_of_two t
  end.

(** ** Sample data *)

(** Scenario A: the two coins of the top list. *)
Definition sample_coins : list json :=
  [JObj [("id", JStr "bitcoin"); ("symbol", JStr "btc");
         ("name", JStr "Bitcoin")];
   JObj [("id", JStr "ethereum"); ("symbol", JStr "eth");
         ("name", JStr "Ethereum")]].

(** The floats 65000.5 and -2.3 (the nearest binary64 value). *)
Definition float_65000_5 : spec_float :=
  S754_finite false 8933600695156736 (-37).
Definition float_minus_2_3 : spec_float :=
  S754_finite true 5179139571476070 (-51).

(** Scenario B: a fully populated detail in [usd]. *)
Definition sample_detail : json :=
  JObj [("usd", JFloat float_65000_5);
        ("usd_market_cap", JInt 1280000000000);
        ("usd_24h_change", JFloat float_minus_2_3)].

(** A detail without its 24h change. *)
Definition partial_detail : json :=
  JObj [("usd", JFloat float_65000_5);
        ("usd_market_cap", JInt 1280000000000)].

Definition requested_id (r : request) : string :=
  match dict_find (params r) "ids" with
  | Some (JStr i) => i
  | _ => ""
  end.

(** A service that answers every request: the sample coins for the lists
    and the search, [detail] for whichever coin is asked. *)
Definition net_serving (detail : json) (r : request) : http_outcome :=
  if String.eqb (url r) (COINGECKO_API_URL ++ "/simple/price") then
    Response 200 (Some (JObj [(requested_id r, detail)]))
  else if String.eqb (url r) (COINGECKO_API_URL ++ "/coins/markets") then
    Response 200 (Some (JList sample_coins))
  else
    Response 200 (Some (JObj [("coins", JList sample_coins)])).


(** A service that cannot be reached. *)
Definition net_down (r : request) : http_outcome := Unreachable.

(** A service that answers every request with [status] and [body]. *)
Definition net_constant (status : Z) (body : option json) (r : request)
  : http_outcome :=
  Response status body.

Definition repr_none (v : json) : string := "".

(** A session in [current] that has chosen the coin [id]. *)
Definition session_with_coin (current : conv_state) (id : string) : session :=
  {| state := Some current;
     mem := {| user_data := [("crypto", id)]; sent := []; logged := [] |} |}.

Definition session_in (current : conv_state) : session :=
  {| state := Some current; mem := empty_store |}.

(** The operations of the price data client and the request each sends;
    the search is the one [handle_message] makes for the lower-cased
    text. *)
Inductive operation : Type :=
| fetchTopCoins (limit : Z)
| fetchTrendingCoins
| fetchCoinDetail (crypto_id currency : string)
| searchCoins (body : string).

Definition operation_request (op : operation) : request :=
  match op with
  | fetchTopCoins limit =>
      {| url := COINGECKO_API_URL ++ "/coins/markets";
         params := [("vs_currency", JStr "usd");
                    ("order", JStr "market_cap_desc");
                    ("per_page", JInt limit);
                    ("page", JInt 1);
                    ("sparkline", JBool false)] |}
  | fetchTrendingCoins =>
      {| url := COINGECKO_API_URL ++ "/search/trending"; params := [] |}
  | fetchCoinDetail crypto_id currency => detail_request crypto_id currency
  | searchCoins body =>
      {| url := COINGECKO_API_URL ++ "/search";
         params := [("query", JStr (PyStr.lower body))] |}
  end.

Definition checks_status (op : operation) : bool :=
  match op with
  | searchCoins _ => false
  | _ => true
  end.

(** The failures of a request that the operation catches: the service is
    unreachable; the status is an error status, where the operation calls
    [raise_for_status]; the body does not decode, where the decode error is
    a [RequestException]. *)
Definition request_fails (net : request -> http_outcome) (jre : bool)
           (op : operation) : Prop :=
  net (operation_request op) = Unreachable
  \/ (checks_status op = true
      /\ exists c b, net (operation_request op) = Response c b
                     /\ error_status c = true)
  \/ (jre = true /\ exists c, net (operation_request op) = Response c None).

(** The operation logs the failure [e] and gives its empty result; the
    search answers with the error notice and the main menu and returns to
    [MAIN_MENU]. *)
Definition degrades (net : request -> http_outcome) (jre : bool)
           (repr : json -> string) (op : operation) (s : store) (e : exn)
  : Prop :=
  match op with
  | fetchTopCoins limit =>
      get_top_cryptos net jre limit s
      = (add_logged s [("Error fetching top cryptos", e)], Ok (JList []))
  | fetchTrendingCoins =>
      get_trending_cryptos net jre s
      = (add_logged s [("Error fetching trending cryptos", e)], Ok (JList []))
  | fetchCoinDetail crypto_id currency =>
      get_crypto_details net jre crypto_id currency s
      = (add_logged s [("Error fetching crypto details for " ++ crypto_id, e)],
         Ok (JObj []))
  | searchCoins body =>
      handle_message net jre repr (TextMessage body) s
      = (add_sent (add_logged s [("Error searching for cryptocurrency", e)])
           [ReplyText
              "An error occurred while searching for the cryptocurrency." None;
            ReplyText welcome (Some main_menu_keyboard)],
         Ok (Some MAIN_MENU))
  end.

(** A search answer that lists the sample coins. *)
Definition coins_body : json := JObj [("coins", JList sample_coins)].

(** ** Vocabulary for the behaviour of handlers *)

(** An exception raised by the program's own evaluation, not by the
    transport: none of these is a [requests.RequestException]. *)
Definition is_internal (e : exn) : bool :=
  match e with
  | ConnectionError | HTTPError | JSONDecodeError => false
  | _ => true
  end.

(** A result that raises internal exceptions only. *)
Definition raises_internal {A} (r : result A) : Prop :=
  forall e, r = Raise e -> is_internal e = true.

(** What the bot shows: an acknowledgement, a text without keyboard, the
    main menu, or a keyboard whose last row is the back button. *)
Definition menu_ok (a : action) : Prop :=
  match a with
  | Answer => True
  | EditMessageText _ None | ReplyText _ None => True
  | EditMessageText _ (Some k) | ReplyText _ (Some k) =>
      k = main_menu_keyboard \/ exists rows, k = (rows ++ [back_row])%list
  end.

(** A computation that only appends to the chat and to the log, sends
    only actions satisfying [P], raises only exceptions satisfying [Q] and,
    when [ud] is set, leaves the user data alone. *)
Definition tame (ud : bool) (P : action -> Prop) (Q : exn -> Prop)
           {A} (m : M A) : Prop :=
  forall s,
    (ud = true -> user_data (fst (m s)) = user_data s)
    /\ (exists l, sent (fst (m s)) = (sent s ++ l)%list /\ Forall P l)
    /\ (exists l, logged (fst (m s)) = (logged s ++ l)%list)
    /\ (forall e, snd (m s) = Raise e -> Q e).

(** Not a [requests.RequestException]. *)
Definition not_request (jre : bool) (e : exn) : Prop :=
  is_RequestException jre e = false.

(** A list entry [show_crypto_list] can make a button of: an object whose
    [symbol], when present, is a string. *)
Definition renderable_entry (c : json) : bool :=
  match c with
  | JObj d =>
      match dict_find d "symbol" with
      | Some (JStr _) | None => true
      | _ => false
      end
  | _ => false
  end.


(** A button press that is a coin choice. *)
Definition is_coin_press (u : update) : bool :=
  match u with
  | CallbackQuery data => PyStr.startswith data "crypto:"
  | _ => false
  end.

(** The states in which button presses are handled. *)
Definition is_menu_state (current : option conv_state) : bool :=
  match current with
  | Some MAIN_MENU | Some CHOOSING_CRYPTO | Some CHOOSING_CURRENCY => true
  | _ => false
  end.

(** An update no handler takes in the conversation state [current]: a
    command other than [/start] and [/help] in any spelling of capitals, a
    text outside [TYPING_SEARCH], a button press outside the three menu
    states. *)
Definition has_no_handler (current : option conv_state) (u : update) : bool :=
  match u with
  | Command name =>
      negb (String.eqb (PyStr.lower name) "start"
            || String.eqb (PyStr.lower name) "help")
  | TextMessage _ =>
      match current with
      | Some TYPING_SEARCH => false
      | _ => true
      end
  | CallbackQuery _ => negb (is_menu_state current)
  end.

(** An [int], a [bool] or a [float]: what can be compared with [0]. *)
Definition is_numeric (v : json) : bool :=
  match v with
  | JInt _ | JBool _ | JFloat _ => true
  | _ => false
  end.

(** A detail whose 24h change is [null]. *)
Definition null_change_detail : json :=
  JObj [("usd", JFloat float_65000_5);
        ("usd_market_cap", JInt 1280000000000);
        ("usd_24h_change", JNull)].

(** Twelve coins, as a search may return them. *)
Definition twelve_coins : list json :=
  map (fun i => JObj [("id", JStr i); ("name", JStr i); ("symbol", JStr i)])
      ["a"; "b"; "c"; "d"; "e"; "f"; "g"; "h"; "i"; "j"; "k"; "l"].

(** Not a minus sign. *)
Definition unsigned (c : ascii) : bool := negb (Ascii.eqb c "-").

(** * Properties *)

Unset Implicit Arguments.

(** ** Stores and the monad *)

Lemma add_sent_nil s : add_sent s [] = s.
Proof. destruct s; unfold add_sent; simpl; now rewrite app_nil_r. Qed.

Lemma add_sent_app s l1 l2 : add_sent (add_sent s l1) l2 = add_sent s (l1 ++ l2).
Proof. unfold add_sent; simpl; now rewrite app_assoc. Qed.

Lemma send_eq a s : send a s = (add_sent s [a], Ok tt).
Proof. reflexivity. Qed.

(** ** Strings *)

Module PyStrFacts.
Import PyStr.

Lemma prefix_cons a n b t :
  prefix (String a n) (String b t) = Ascii.eqb a b && prefix n t.
Proof.
  simpl. destruct (ascii_dec a b) as [->|Hne].
  - now rewrite Ascii.eqb_refl.
  - apply Ascii.eqb_neq in Hne. now rewrite Hne.
Qed.

Lemma prefix_app p t : prefix p (p ++ t) = true.
Proof.
  induction p as [|a p IH]; simpl.
  - now destruct t.
  - destruct (ascii_dec a a); [assumption | congruence].
Qed.

Lemma prefix_split p s : prefix p s = true -> exists t, s = p ++ t.
Proof.
  revert s. induction p as [|a p IH]; intros s H.
  - now exists s.
  - destruct s as [|b s]; [discriminate|].
    rewrite prefix_cons in H. apply andb_prop in H as [Hab Hp].
    apply Ascii.eqb_eq in Hab as ->.
    destruct (IH _ Hp) as [t ->]. now exists t.
Qed.

Lemma free_of_cons c x s :
  free_of c (String x s) = negb (Ascii.eqb x c) && free_of c s.
Proof. reflexivity. Qed.

(** A field without separator is the whole split. *)
Lemma split_free sep s : free_of sep s = true -> split sep s = [s].
Proof.
  induction s as [|x s IH]; intros H; [reflexivity|].
  rewrite free_of_cons in H. apply andb_prop in H as [Hx Hs].
  simpl. apply negb_true_iff in Hx. rewrite Hx, (IH Hs). reflexivity.
Qed.

(** The first field ends at the first separator. *)
Lemma split_app sep p t :
  free_of sep p = true ->
  split sep (p ++ String sep t) = p :: split sep t.
Proof.
  induction p as [|x p IH]; intros H.
  - simpl. now rewrite Ascii.eqb_refl.
  - rewrite free_of_cons in H. apply andb_prop in H as [Hx Hp].
    apply negb_true_iff in Hx. simpl. rewrite Hx, (IH Hp). reflexivity.
Qed.

Lemma split_not_nil sep s : split sep s <> [].
Proof.
  destruct s as [|x s]; simpl; [discriminate|].
  destruct (Ascii.eqb x sep); [discriminate|].
  destruct (split sep s); discriminate.
Qed.

(** [(p + sep + t).split(sep)[1]] is the first field of [t]. *)
Lemma split_second sep p t :
  free_of sep p = true ->
  nth_error (split sep (p ++ String sep t)) 1
  = Some (hd EmptyString (split sep t)).
Proof.
  intros H. rewrite (split_app _ _ _ H). simpl.
  destruct (split sep t) eqn:E; [now apply split_not_nil in E | reflexivity].
Qed.

Lemma first_field_free sep a : 
  free_of sep a = true -> hd EmptyString (split sep a) = a.
Proof. intros H. now rewrite (split_free _ _ H). Qed.

Lemma first_field_app sep a rest :
  free_of sep a = true ->
  hd EmptyString (split sep (a ++ String sep rest)) = a.
Proof. intros H. now rewrite (split_app _ _ _ H). Qed.

End PyStrFacts.

(** Unfolds the operations of [M] on a known store. *)
Ltac run_monad :=
  repeat (unfold bind, send, lift, set_user_data, get_user_data, ret, raise,
           log_error, edit_message_text, reply_text;
          cbn [user_data sent logged fst snd]).

(** ** The callback query handler, branch by branch *)

Section ButtonClick.
Variable net : request -> http_outcome.
Variable jre : bool.
Variable repr : json -> string.

Lemma crypto_token_fields payload :
  "crypto:" ++ payload = "crypto" ++ String ":" payload.
Proof. reflexivity. Qed.

Lemma currency_token_fields payload :
  "currency:" ++ payload = "currency" ++ String ":" payload.
Proof. reflexivity. Qed.

Lemma index_crypto_token payload :
  Py.index (PyStr.split ":" ("crypto:" ++ payload)) 1
  = Ok (hd EmptyString (PyStr.split ":" payload)).
Proof.
  unfold Py.index. rewrite crypto_token_fields.
  now rewrite PyStrFacts.split_second.
Qed.

Lemma index_currency_token payload :
  Py.index (PyStr.split ":" ("currency:" ++ payload)) 1
  = Ok (hd EmptyString (PyStr.split ":" payload)).
Proof.
  unfold Py.index. rewrite currency_token_fields.
  now rewrite PyStrFacts.split_second.
Qed.

(** A press on [crypto:<payload>] stores the first field of the payload
    and shows the currencies. *)
Lemma button_click_crypto payload s :
  button_click net jre repr (CallbackQuery ("crypto:" ++ payload)) s
  = ({| user_data := dict_set (user_data s) "crypto"
                              (hd EmptyString (PyStr.split ":" payload));
        sent := sent s ++
                [Answer;
                 EditMessageText "Choose a currency:"
                                 (Some currency_keyboard)];
        logged := logged s |},
     Ok (Some CHOOSING_CURRENCY)).
Proof.
  unfold button_click.
  pose proof (PyStrFacts.prefix_app "crypto:" payload) as Hp.
  pose proof (index_crypto_token payload) as Hi.
  cbn [append String.eqb Ascii.eqb Bool.eqb] in *.
  unfold PyStr.startswith. rewrite Hp.
  unfold show_currency_options. rewrite Hi. run_monad.
  now rewrite <- app_assoc.
Qed.

(** A press on [currency:<payload>] looks up the stored coin, or
    [bitcoin], in the currency named by the first field of the payload. *)
Lemma button_click_currency payload s :
  button_click net jre repr (CallbackQuery ("currency:" ++ payload)) s
  = (send Answer ;;;
     show_crypto_details net jre (CallbackQuery ("currency:" ++ payload))
       (dict_get (user_data s) "crypto" "bitcoin")
       (hd EmptyString (PyStr.split ":" payload)) ;;;
     ret (Some MAIN_MENU)) s.
Proof.
  unfold button_click.
  pose proof (PyStrFacts.prefix_app "currency:" payload) as Hp.
  pose proof (index_currency_token payload) as Hi.
  assert (Hn : prefix "crypto:" ("currency:" ++ payload) = false)
    by reflexivity.
  cbn [append] in *. cbn [String.eqb Ascii.eqb Bool.eqb].
  unfold PyStr.startswith. rewrite Hn, Hp, Hi.
  reflexivity.
Qed.

(** Any other token but the four menu tokens is dropped. *)
Lemma button_click_other data s :
  data <> "main_menu" -> data <> "top100" -> data <> "trending" ->
  data <> "search" ->
  PyStr.startswith data "crypto:" = false ->
  PyStr.startswith data "currency:" = false ->
  button_click net jre repr (CallbackQuery data) s
  = (add_sent s [Answer], Ok None).
Proof.
  intros H1 H2 H3 H4 H5 H6. unfold button_click.
  apply String.eqb_neq in H1, H2, H3, H4.
  rewrite H1, H2, H3, H4, H5, H6. reflexivity.
Qed.

(** [/start] shows the main menu as a new message and touches nothing
    else. *)
Lemma start_command s :
  start (Command "start") s
  = (add_sent s [ReplyText
                   "Welcome to the Crypto Price Bot! What would you like to do?"
                   (Some main_menu_keyboard)],
     Ok (Some MAIN_MENU)).
Proof. reflexivity. Qed.

(** From every state, [/start] is taken by the [start] handler: as the
    entry point before the conversation runs, as the fallback after. *)
Lemma select_start current :
  select_handler (conv_handler net jre repr) current (Command "start")
  = Some start.
Proof. destruct current as [[]|]; reflexivity. Qed.

(** A button press is taken by [button_click] in the three menu states
    and by nothing elsewhere. *)
Lemma select_callback current data :
  select_handler (conv_handler net jre repr) current (CallbackQuery data)
  = match current with
    | Some MAIN_MENU | Some CHOOSING_CRYPTO | Some CHOOSING_CURRENCY =>
        Some (button_click net jre repr)
    | _ => None
    end.
Proof. destruct current as [[]|]; reflexivity. Qed.

End ButtonClick.

(** ** The conversation *)

(** C2 (counterexample).  A session in [CHOOSING_CURRENCY] that has chosen
    [ethereum] receives [/start]: the machine is in [MAIN_MENU] but the
    stored coin id is still [ethereum], not cleared, and a currency picked
    next without a new coin choice is answered with Ethereum's details. *)
Lemma start_clears_coin_counterexample :
  let ss := process_update (net_serving sample_detail) true repr_none
              (session_with_coin CHOOSING_CURRENCY "ethereum")
              (Command "start") in
  state ss = Some MAIN_MENU
  /\ dict_find (user_data (mem ss)) "crypto" = Some "ethereum"
  /\ dict_find (user_data (mem ss)) "crypto" <> None
  /\ exists rest,
       last (sent (mem (process_update (net_serving sample_detail) true
                          repr_none ss (CallbackQuery "currency:usd"))))
            Answer
       = EditMessageText ("💰 Ethereum (USD)" ++ rest) (Some [back_row]).
Proof.
  cbv zeta. repeat split; try discriminate.
  eexists. vm_compute. reflexivity.
Qed.

(** C2 (amended).  From every state, and before the conversation runs,
    [/start] puts the machine in [MAIN_MENU] and shows the main menu; the
    store is otherwise untouched, so the coin id stored before the command
    is still the one a currency selection made next, without a new coin
    choice, looks up. *)
Theorem start_resets_state_keeps_coin
        (net : request -> http_outcome) (jre : bool) (repr : json -> string)
        (ss : session) :
  let ss' := process_update net jre repr ss (Command "start") in
  state ss' = Some MAIN_MENU
  /\ mem ss' = add_sent (mem ss) [ReplyText welcome (Some main_menu_keyboard)]
  /\ user_data (mem ss') = user_data (mem ss)
  /\ forall code,
       button_click net jre repr (CallbackQuery ("currency:" ++ code)) (mem ss')
       = (send Answer ;;;
          show_crypto_details net jre (CallbackQuery ("currency:" ++ code))
            (dict_get (user_data (mem ss)) "crypto" "bitcoin")
            (hd EmptyString (PyStr.split ":" code)) ;;;
          ret (Some MAIN_MENU)) (mem ss').
Proof.
  cbv zeta. unfold process_update.
  rewrite select_start, start_command. cbn [state mem].
  repeat split.
  intros code. now rewrite button_click_currency.
Qed.

(** C9.  A selection token that is none of [main_menu], [top100],
    [trending], [search] and starts with neither [crypto:] nor [currency:]
    is dropped: the handler acknowledges the press and returns no next
    state, so the conversation stays where it is, the store keeps its user
    data and its log, and no message is rendered. *)
Theorem unrecognized_token_ignored
        (net : request -> http_outcome) (jre : bool) (repr : json -> string)
        (data : string) (ss : session) :
  data <> "main_menu" -> data <> "top100" -> data <> "trending" ->
  data <> "search" ->
  PyStr.startswith data "crypto:" = false ->
  PyStr.startswith data "currency:" = false ->
  button_click net jre repr (CallbackQuery data) (mem ss)
  = (add_sent (mem ss) [Answer], Ok None)
  /\ let ss' := process_update net jre repr ss (CallbackQuery data) in
     state ss' = state ss
     /\ user_data (mem ss') = user_data (mem ss)
     /\ rendered (sent (mem ss')) = rendered (sent (mem ss))
     /\ logged (mem ss') = logged (mem ss).
Proof.
  intros H1 H2 H3 H4 H5 H6.
  pose proof (button_click_other net jre repr data (mem ss) H1 H2 H3 H4 H5 H6)
    as Hb.
  split; [exact Hb|].
  cbv zeta. unfold process_update. rewrite select_callback.
  destruct ss as [[[]|] m]; cbn [state mem] in *;
    try rewrite Hb; cbn [state mem add_sent user_data sent logged];
    repeat split; unfold rendered; rewrite filter_app; cbn [filter];
    now rewrite app_nil_r.
Qed.

Lemma unrecognized_token_ignored_witness :
  button_click net_down true repr_none (CallbackQuery "bogus")
               (mem (session_in CHOOSING_CRYPTO))
  = (add_sent (mem (session_in CHOOSING_CRYPTO)) [Answer], Ok None)
  /\ let ss' := process_update net_down true repr_none
                  (session_in CHOOSING_CRYPTO) (CallbackQuery "bogus") in
     state ss' = Some CHOOSING_CRYPTO
     /\ user_data (mem ss') = []
     /\ rendered (sent (mem ss')) = []
     /\ logged (mem ss') = [].
Proof.
  apply (unrecognized_token_ignored net_down true repr_none "bogus"
           (session_in CHOOSING_CRYPTO));
    first [discriminate | reflexivity].
Defined.

(** ** The detail lookup *)

Section Details.
Variable net : request -> http_outcome.
Variable jre : bool.

Lemma try_except_lift {A} (r : result A) (h : exn -> M A) s :
  try_except jre (lift r) h s
  = match r with
    | Ok a => (s, Ok a)
    | Raise e => if is_RequestException jre e then h e s else (s, Raise e)
    end.
Proof. unfold try_except, lift. now destruct r. Qed.

(** The lookup sends nothing to the chat and leaves the user data. *)
Lemma get_crypto_details_frame id cur s :
  sent (fst (get_crypto_details net jre id cur s)) = sent s
  /\ user_data (fst (get_crypto_details net jre id cur s)) = user_data s.
Proof.
  unfold get_crypto_details. rewrite try_except_lift.
  match goal with |- context [match ?r with Ok _ => _ | Raise _ => _ end] =>
    destruct r as [j|e] end; [now split|].
  destruct (is_RequestException jre e); now split.
Qed.

(** An unreachable service gives the empty detail. *)
Lemma get_crypto_details_unreachable id cur s :
  net (detail_request id cur) = Unreachable ->
  snd (get_crypto_details net jre id cur s) = Ok (JObj []).
Proof.
  intros H. unfold get_crypto_details. rewrite try_except_lift.
  unfold requests_get. fold (detail_request id cur). now rewrite H.
Qed.

(** So does an error status. *)
Lemma get_crypto_details_http_error id cur s c b :
  net (detail_request id cur) = Response c b ->
  error_status c = true ->
  snd (get_crypto_details net jre id cur s) = Ok (JObj []).
Proof.
  intros H Hc. unfold get_crypto_details. rewrite try_except_lift.
  unfold requests_get. fold (detail_request id cur). rewrite H.
  unfold rbind, raise_for_status. cbn [status_code].
  unfold error_status in Hc. now rewrite Hc.
Qed.

(** So does a response that does not list the coin. *)
Lemma get_crypto_details_unknown id cur s c d :
  net (detail_request id cur) = Response c (Some (JObj d)) ->
  error_status c = false ->
  dict_find d id = None ->
  snd (get_crypto_details net jre id cur s) = Ok (JObj []).
Proof.
  intros H Hc Hd. unfold get_crypto_details. rewrite try_except_lift.
  unfold requests_get. fold (detail_request id cur). rewrite H.
  unfold rbind, raise_for_status. cbn [status_code].
  unfold error_status in Hc. rewrite Hc.
  cbn [response_json body_json Py.get]. unfold dict_get. now rewrite Hd.
Qed.

(** What [show_crypto_details] does once the lookup has answered. *)
Lemma show_crypto_details_run data id cur s details :
  snd (get_crypto_details net jre id cur s) = Ok details ->
  let out := show_crypto_details net jre (CallbackQuery data) id cur s in
  match details_message id cur details with
  | Ok message =>
      snd out = Ok tt
      /\ sent (fst out)
         = (sent s ++ [EditMessageText message (Some [back_row])])%list
  | Raise e => snd out = Raise e /\ sent (fst out) = sent s
  end
  /\ user_data (fst out) = user_data s.
Proof.
  intros H. cbv zeta. unfold show_crypto_details, bind.
  destruct (get_crypto_details_frame id cur s) as [Hs Hu].
  destruct (get_crypto_details net jre id cur s) as [s' r].
  cbn [fst snd] in *. subst r. unfold lift.
  destruct (details_message id cur details) as [m|e]; run_monad;
    rewrite ?Hs, ?Hu; repeat split.
Qed.

End Details.

(** C6 (counterexample).  The not-found message is not one fixed text: it
    names the coin id, so two unknown coins get two different messages. *)
Lemma not_found_fixed_counterexample :
  details_message "bitcoin" "usd" (JObj [])
  = Ok "Sorry, I couldn't find the details for bitcoin."
  /\ details_message "dogecoin" "usd" (JObj [])
     = Ok "Sorry, I couldn't find the details for dogecoin."
  /\ details_message "bitcoin" "usd" (JObj [])
     <> details_message "dogecoin" "usd" (JObj []).
Proof. repeat split. discriminate. Qed.

(** C6 (amended).  Whenever the detail lookup yields an empty detail,
    whatever the currency, the answer is the not-found message -- a fixed
    text around the coin id -- over the back button.  An unreachable
    service, an error status and a response that does not list the coin all
    end there: the rendered output of a failed request is the one of an
    unknown coin. *)
Theorem empty_detail_renders_not_found
        (net : request -> http_outcome) (jre : bool)
        (crypto_id currency data : string) (s : store) :
  let out :=
    show_crypto_details net jre (CallbackQuery data) crypto_id currency s in
  let shown :=
    snd out = Ok tt
    /\ sent (fst out)
       = (sent s ++ [EditMessageText (not_found crypto_id) (Some [back_row])])%list
    /\ user_data (fst out) = user_data s in
  (forall details,
      snd (get_crypto_details net jre crypto_id currency s) = Ok details ->
      Py.truthy details = false -> shown)
  /\ (net (detail_request crypto_id currency) = Unreachable -> shown)
  /\ (forall c b,
         net (detail_request crypto_id currency) = Response c b ->
         error_status c = true -> shown)
  /\ (forall c d,
         net (detail_request crypto_id currency) = Response c (Some (JObj d)) ->
         error_status c = false ->
         dict_find d crypto_id = None -> shown).
Proof.
  cbv zeta.
  assert (Hgen : forall details,
             snd (get_crypto_details net jre crypto_id currency s) = Ok details ->
             Py.truthy details = false ->
             snd (show_crypto_details net jre (CallbackQuery data)
                    crypto_id currency s) = Ok tt
             /\ sent (fst (show_crypto_details net jre (CallbackQuery data)
                             crypto_id currency s))
                = (sent s ++ [EditMessageText (not_found crypto_id)
                                             (Some [back_row])])%list
             /\ user_data (fst (show_crypto_details net jre
                                  (CallbackQuery data) crypto_id currency s))
                = user_data s).
  { intros details Hd Ht.
    pose proof (show_crypto_details_run net jre data crypto_id currency s
                  details Hd) as Hrun.
    cbv zeta in Hrun. unfold details_message in Hrun. rewrite Ht in Hrun.
    tauto. }
  split; [exact Hgen|]. split; [|split].
  - intros H. apply (Hgen (JObj [])); [|reflexivity].
    now apply get_crypto_details_unreachable.
  - intros c b H Hc. apply (Hgen (JObj [])); [|reflexivity].
    now apply (get_crypto_details_http_error net jre crypto_id currency s c b).
  - intros c d H Hc Hd. apply (Hgen (JObj [])); [|reflexivity].
    now apply (get_crypto_details_unknown net jre crypto_id currency s c d).
Qed.

Lemma empty_detail_renders_not_found_witness :
  sent (fst (show_crypto_details net_down true (CallbackQuery "currency:usd")
               "dogecoin" "usd" empty_store))
  = [EditMessageText "Sorry, I couldn't find the details for dogecoin."
                     (Some [back_row])]
  /\ sent (fst (show_crypto_details (net_constant 200 (Some (JObj []))) true
                  (CallbackQuery "currency:usd") "dogecoin" "usd" empty_store))
     = [EditMessageText "Sorry, I couldn't find the details for dogecoin."
                        (Some [back_row])].
Proof.
  split.
  - apply (proj1 (proj2 (empty_detail_renders_not_found
                           net_down true "dogecoin" "usd" "currency:usd"
                           empty_store))).
    reflexivity.
  - apply (proj2 (proj2 (proj2 (empty_detail_renders_not_found
                           (net_constant 200 (Some (JObj []))) true
                           "dogecoin" "usd" "currency:usd" empty_store)))
             200%Z []); reflexivity.
Defined.

Lemma dict_get_set_same {V} (d : dict V) k v default :
  dict_get (dict_set d k v) k default = v.
Proof.
  unfold dict_get.
  induction d as [|[k' v'] d IH]; simpl.
  - now rewrite String.eqb_refl.
  - destruct (String.eqb k' k) eqn:E; simpl; rewrite E; [reflexivity|exact IH].
Qed.

Lemma dict_get_absent {V} (d : dict V) k default :
  dict_find d k = None -> dict_get d k default = default.
Proof. unfold dict_get. now intros ->. Qed.

(** C10.  The handler splits the token on every colon and keeps the second
    field only.  For a payload [a:rest], with no colon in [a], a press on
    [crypto:a:rest] stores [a] as the coin id and a press on
    [currency:a:rest] looks the coin up in the currency [a]; [rest] is
    dropped without notice. *)
Theorem token_payload_truncated
        (net : request -> http_outcome) (jre : bool) (repr : json -> string)
        (a rest : string) (s : store) :
  PyStr.free_of ":" a = true ->
  Py.index (PyStr.split ":" ("crypto:" ++ a ++ ":" ++ rest)) 1 = Ok a
  /\ button_click net jre repr (CallbackQuery ("crypto:" ++ a ++ ":" ++ rest)) s
     = ({| user_data := dict_set (user_data s) "crypto" a;
           sent := sent s ++
                   [Answer;
                    EditMessageText "Choose a currency:"
                                    (Some currency_keyboard)];
           logged := logged s |},
        Ok (Some CHOOSING_CURRENCY))
  /\ button_click net jre repr
       (CallbackQuery ("currency:" ++ a ++ ":" ++ rest)) s
     = (send Answer ;;;
        show_crypto_details net jre
          (CallbackQuery ("currency:" ++ a ++ ":" ++ rest))
          (dict_get (user_data s) "crypto" "bitcoin") a ;;;
        ret (Some MAIN_MENU)) s.
Proof.
  intros Ha.
  assert (Hf : hd EmptyString (PyStr.split ":" (a ++ ":" ++ rest)) = a)
    by now apply PyStrFacts.first_field_app.
  rewrite index_crypto_token, button_click_crypto, button_click_currency, Hf.
  repeat split.
Qed.

Lemma token_payload_truncated_witness :
  Py.index (PyStr.split ":" "crypto:a:b") 1 = Ok "a"
  /\ user_data (fst (button_click net_down true repr_none
                       (CallbackQuery "crypto:a:b") empty_store))
     = [("crypto", "a")].
Proof.
  destruct (token_payload_truncated net_down true repr_none "a" "b"
              empty_store eq_refl) as [Hi [Hc _]].
  split; [exact Hi|].
  cbn [append] in Hc. rewrite Hc. reflexivity.
Defined.

(** ** The coin list *)

Module ListFacts.

(** Induction over a list two elements at a time. *)
Lemma pair_induction {A} (P : list A -> Prop) :
  P [] -> (forall a, P [a]) -> (forall a b t, P t -> P (a :: b :: t)) ->
  forall l, P l.
Proof.
  intros H0 H1 H2 l.
  enough (P l /\ forall a, P (a :: l)) by tauto.
  induction l as [|x l [IHl IHx]]; split; auto.
Qed.

Lemma range0_two_steps n :
  Py.range0 (S (S n)) 2 = 0 :: map (fun i => 2 + i) (Py.range0 n 2).
Proof.
  unfold Py.range0.
  replace (S (S n) + 2 - 1) with ((n + 2 - 1) + 1 * 2) by lia.
  rewrite Nat.div_add by discriminate.
  rewrite Nat.add_1_r. cbn [seq map]. f_equal.
  rewrite <- seq_shift, !map_map. apply map_ext. intros k. lia.
Qed.

(** The slices [l[i:i+2]] for [i] in [range(0, len(l), 2)] are the rows
    of two. *)
Lemma slices_are_rows {A} (l : list A) :
  map (fun i => firstn (i + 2 - i) (skipn i l)) (Py.range0 (List.length l) 2)
  = rows_of_two l.
Proof.
  induction l as [| a | a b t IH] using pair_induction.
  - reflexivity.
  - reflexivity.
  - cbn [List.length]. rewrite range0_two_steps. cbn [map rows_of_two].
    f_equal. rewrite map_map. rewrite <- IH. apply map_ext. intros i.
    replace (2 + i + 2 - (2 + i)) with (i + 2 - i) by lia. reflexivity.
Qed.

Lemma rows_length {A} (l : list A) :
  List.length (rows_of_two l) = (List.length l + 1) / 2.
Proof.
  induction l as [| a | a b t IH] using pair_induction;
    [reflexivity | reflexivity |].
  cbn [rows_of_two List.length]. rewrite IH.
  replace (S (S (List.length t)) + 1) with ((List.length t + 1) + 1 * 2)
    by lia.
  rewrite Nat.div_add by discriminate. lia.
Qed.

Lemma rows_concat {A} (l : list A) : List.concat (rows_of_two l) = l.
Proof.
  induction l as [| a | a b t IH] using pair_induction;
    [reflexivity | reflexivity |].
  cbn [rows_of_two List.concat app]. now rewrite IH.
Qed.

(** Every row but the last holds two. *)
Lemma rows_full {A} (l : list A) :
  Forall (fun r => List.length r = 2) (removelast (rows_of_two l)).
Proof.
  induction l as [| a | a b t IH] using pair_induction;
    [constructor | constructor |].
  cbn [rows_of_two].
  destruct (rows_of_two t) as [|r rs] eqn:E; [constructor|].
  change (removelast ([a; b] :: r :: rs))
    with ([a; b] :: removelast (r :: rs)).
  constructor; [reflexivity | exact IH].
Qed.

(** The last row holds one when the length is odd, two when it is even
    and not zero. *)
Lemma rows_last {A} (l : list A) :
  List.length (last (rows_of_two l) [])
  = if Nat.odd (List.length l) then 1
    else match l with [] => 0 | _ => 2 end.
Proof.
  induction l as [| a | a b t IH] using pair_induction;
    [reflexivity | reflexivity |].
  cbn [rows_of_two List.length].
  change (Nat.odd (S (S (List.length t)))) with (Nat.odd (List.length t)).
  destruct t as [|c t']; [reflexivity|].
  destruct (rows_of_two (c :: t')) as [|r rs] eqn:E.
  - destruct t'; discriminate.
  - change (last ([a; b] :: r :: rs) []) with (last (r :: rs) []).
    rewrite IH. reflexivity.
Qed.

Lemma rows_map {A B} (f : A -> B) (l : list A) :
  rows_of_two (map f l) = map (map f) (rows_of_two l).
Proof.
  induction l as [| a | a b t IH] using pair_induction;
    [reflexivity | reflexivity |].
  cbn [map rows_of_two]. now rewrite IH.
Qed.

Lemma for_each_map {A B C} (g : A -> B) (f : B -> result C) (l : list A) :
  Py.for_each (fun a => f (g a)) l = Py.for_each f (map g l).
Proof. induction l as [|a l IH]; [reflexivity|]. cbn. now rewrite IH. Qed.

Lemma for_each_ext {A B} (f g : A -> result B) (l : list A) :
  (forall a, f a = g a) -> Py.for_each f l = Py.for_each g l.
Proof.
  intros H. induction l as [|a l IH]; [reflexivity|]. cbn.
  now rewrite H, IH.
Qed.

(** A loop whose body succeeds on every item succeeds, item by item. *)
Lemma for_each_total {A B} (f : A -> result B) (g : A -> B) (l : list A) :
  Forall (fun a => f a = Ok (g a)) l -> Py.for_each f l = Ok (map g l).
Proof.
  induction 1 as [|a l Ha _ IH]; [reflexivity|]. cbn.
  now rewrite Ha, IH.
Qed.

Lemma for_each_rows {A B} (f : A -> result B) (g : A -> B) (l : list A) :
  Forall (fun a => f a = Ok (g a)) l ->
  Py.for_each (Py.for_each f) (rows_of_two l) = Ok (rows_of_two (map g l)).
Proof.
  induction l as [| a | a b t IH] using pair_induction; intros H.
  - reflexivity.
  - inversion H as [|? ? Ha _]; subst. cbn. now rewrite Ha.
  - inversion H as [|? ? Ha H']; subst.
    inversion H' as [|? ? Hb Ht]; subst.
    cbn [rows_of_two map Py.for_each rbind]. rewrite Ha, Hb.
    cbn [rbind]. rewrite (IH Ht). reflexivity.
Qed.

End ListFacts.

Section CoinList.
Variable repr : json -> string.

(** The button of a coin summary carries its id. *)
Lemma crypto_button_summary c :
  is_coin_summary c = true ->
  exists b, crypto_button repr c = Ok b
            /\ callback_data b = "crypto:" ++ coin_id c.
Proof.
  destruct c as [| | | | |l|d]; try discriminate. intros H.
  unfold is_coin_summary in H.
  apply andb_prop in H as [H Hsym]. apply andb_prop in H as [Hid Hname].
  unfold crypto_button, Py.get, dict_get, coin_id. cbn [rbind].
  destruct (dict_find d "id") as [[| | | |i| |]|]; try discriminate.
  destruct (dict_find d "symbol") as [[| | | |sy| |]|]; try discriminate;
    cbn [Py.upper rbind]; eexists; split; reflexivity.
Qed.

Lemma button_of_summary c :
  is_coin_summary c = true ->
  crypto_button repr c = Ok (button_of repr c)
  /\ callback_data (button_of repr c) = "crypto:" ++ coin_id c.
Proof.
  intros H. destruct (crypto_button_summary c H) as [b [Hb Hd]].
  unfold button_of. rewrite Hb. now split.
Qed.

Lemma keyboard_of_summaries cryptos :
  forallb is_coin_summary cryptos = true ->
  crypto_list_keyboard repr (JList cryptos)
  = Ok (rows_of_two (map (button_of repr) cryptos) ++ [back_row])%list.
Proof.
  intros H. unfold crypto_list_keyboard. cbn [Py.len rbind Py.slice].
  rewrite (ListFacts.for_each_map
             (fun i => firstn (i + 2 - i) (skipn i cryptos))
             (fun part => rbind (Py.iter (JList part))
                            (fun items => Py.for_each (crypto_button repr)
                                                      items))).
  rewrite ListFacts.slices_are_rows.
  rewrite (ListFacts.for_each_ext _ (Py.for_each (crypto_button repr)))
    by reflexivity.
  rewrite (ListFacts.for_each_rows _ (button_of repr)); [reflexivity|].
  apply Forall_forall. intros c Hc.
  apply button_of_summary.
  rewrite forallb_forall in H. now apply H.
Qed.

End CoinList.

(** C8.  For a sequence of [n] coin summaries the keyboard of
    [show_crypto_list] is the coin buttons in rows of two -- [ceil(n/2)]
    rows, all full but a last row of one when [n] is odd -- each button
    carrying [crypto:<id>] in the order of the sequence, followed by one
    row holding the back button, the only option whose token is
    [main_menu]; the list is shown in one message under the title.  For the
    empty sequence the keyboard is the back button alone. *)
Theorem coin_list_layout
        (repr : json -> string) (cryptos : list json) (u : update)
        (title : string) (s : store) :
  forallb is_coin_summary cryptos = true ->
  exists rows,
    crypto_list_keyboard repr (JList cryptos) = Ok (rows ++ [back_row])%list
    /\ show_crypto_list repr u (JList cryptos) title s
       = (add_sent s [render u title (Some (rows ++ [back_row])%list)], Ok tt)
    /\ map (map callback_data) rows
       = rows_of_two (map (fun c => "crypto:" ++ coin_id c) cryptos)
    /\ List.length rows = (List.length cryptos + 1) / 2
    /\ Forall (fun r => List.length r = 2) (removelast rows)
    /\ (Nat.odd (List.length cryptos) = true ->
        List.length (last rows []) = 1)
    /\ map callback_data back_row = ["main_menu"]
    /\ List.length
         (filter (fun b => String.eqb (callback_data b) "main_menu")
                 (List.concat (rows ++ [back_row])))
       = 1
    /\ (cryptos = [] -> (rows ++ [back_row])%list = [back_row]).
Proof.
  intros H. exists (rows_of_two (map (button_of repr) cryptos)).
  pose proof (keyboard_of_summaries repr cryptos H) as Hk.
  assert (Htok : map callback_data (map (button_of repr) cryptos)
                 = map (fun c => "crypto:" ++ coin_id c) cryptos).
  { rewrite map_map. apply map_ext_in. intros c Hc.
    apply button_of_summary. rewrite forallb_forall in H. now apply H. }
  split; [exact Hk|]. split.
  { unfold show_crypto_list, bind. rewrite Hk. unfold lift.
    destruct u; reflexivity. }
  split; [now rewrite <- ListFacts.rows_map, Htok|].
  split; [now rewrite ListFacts.rows_length, length_map|].
  split; [apply ListFacts.rows_full|].
  split.
  { intros Hodd. rewrite ListFacts.rows_last, length_map. now rewrite Hodd. }
  split; [reflexivity|].
  split.
  { rewrite concat_app, ListFacts.rows_concat, filter_app, length_app.
    cbn [List.concat back_row app filter callback_data String.eqb].
    assert (Hnone : filter (fun b => String.eqb (callback_data b) "main_menu")
                           (map (button_of repr) cryptos) = []).
    { clear Hk. induction cryptos as [|c cs IH]; [reflexivity|].
      cbn [forallb] in H. apply andb_prop in H as [Hc Hcs].
      cbn [map] in Htok. injection Htok as Hhd Htl.
      cbn [map filter]. rewrite Hhd. cbn [append String.eqb Ascii.eqb Bool.eqb].
      now apply IH. }
    rewrite Hnone. reflexivity. }
  intros ->. reflexivity.
Qed.

Lemma coin_list_layout_witness :
  exists rows,
    crypto_list_keyboard repr_none (JList sample_coins)
    = Ok (rows ++ [back_row])%list
    /\ map (map callback_data) rows = [["crypto:bitcoin"; "crypto:ethereum"]]
    /\ List.length rows = 1.
Proof.
  destruct (coin_list_layout repr_none sample_coins
              (CallbackQuery "top100") "Top 100 Cryptocurrencies:"
              empty_store eq_refl)
    as [rows [Hk [_ [Htok [Hlen _]]]]].
  exists rows. repeat split; assumption.
Defined.

(** ** Capital letters in the parts of the detail text *)

Module CaseFacts.
Import PyStr.

Lemma no_upper_cons c s : no_upper (String c s) = plain c && no_upper s.
Proof. reflexivity. Qed.

Lemma all_chars_of_list p l :
  all_chars p (string_of_list_ascii l) = forallb p l.
Proof. induction l as [|c l IH]; [reflexivity|]. cbn. now rewrite IH. Qed.

Lemma all_chars_to_list p s :
  forallb p (list_ascii_of_string s) = all_chars p s.
Proof. induction s as [|c s IH]; [reflexivity|]. cbn. now rewrite IH. Qed.

Lemma lower_char_plain c : plain (lower_char c) = true.
Proof.
  destruct c as [[] [] [] [] [] [] [] []]; reflexivity.
Qed.

Lemma lower_no_upper s : no_upper (lower s) = true.
Proof.
  induction s as [|c s IH]; [reflexivity|].
  unfold lower in *. cbn [map_chars]. rewrite no_upper_cons, IH.
  now rewrite lower_char_plain.
Qed.

Lemma plain_neq a c : is_upper a = true -> plain c = true ->
                      Ascii.eqb a c = false.
Proof.
  intros Ha Hc. apply Ascii.eqb_neq. intros ->.
  unfold plain in Hc. now rewrite Ha in Hc.
Qed.

Lemma digits_plain n : forallb plain (Fmt.digits n) = true.
Proof.
  unfold Fmt.digits. rewrite all_chars_to_list.
  generalize (N.to_uint n). intros u.
  assert (H : all_chars plain (NilEmpty.string_of_uint u) = true)
    by (induction u; cbn; auto).
  destruct u; exact H || reflexivity.
Qed.

Lemma sep3_plain k l :
  forallb plain l = true -> forallb plain (Fmt.sep3 k l) = true.
Proof.
  revert k. induction l as [|c l IH]; intros k H; [reflexivity|].
  cbn [forallb] in H. apply andb_prop in H as [Hc Hl].
  destruct k; cbn [Fmt.sep3 forallb]; rewrite Hc, IH by assumption;
    reflexivity.
Qed.

Lemma forallb_rev {A} (p : A -> bool) l :
  forallb p (rev l) = forallb p l.
Proof.
  induction l as [|a l IH]; [reflexivity|].
  cbn [rev forallb]. rewrite forallb_app, IH. cbn [forallb].
  rewrite andb_true_r. apply andb_comm.
Qed.

Lemma group3_plain l :
  forallb plain l = true -> forallb plain (Fmt.group3 l) = true.
Proof.
  intros H. unfold Fmt.group3. rewrite forallb_rev.
  apply sep3_plain. now rewrite forallb_rev.
Qed.

Lemma pad_plain d l :
  forallb plain l = true -> forallb plain (Fmt.pad d l) = true.
Proof.
  intros H. unfold Fmt.pad. rewrite forallb_app, H, andb_true_r.
  induction (d - List.length l) as [|k IH]; [reflexivity|].
  cbn [repeat forallb]. now rewrite IH.
Qed.

Lemma fixed_no_upper neg q d g : no_upper (Fmt.fixed neg q d g) = true.
Proof.
  unfold Fmt.fixed, no_upper. fold plain.
  rewrite all_chars_of_list, !forallb_app.
  apply andb_true_intro; split; [now destruct neg|].
  apply andb_true_intro; split.
  - destruct g; [apply group3_plain|]; apply digits_plain.
  - destruct d; [reflexivity|].
    cbn [forallb]. apply pad_plain, digits_plain.
Qed.

Lemma float_no_upper f d g : no_upper (Fmt.float f d g) = true.
Proof.
  destruct f as [s|s| |s m e]; cbn [Fmt.float];
    try apply fixed_no_upper; try reflexivity.
  now destruct s.
Qed.

(** A number formats, and without capital letters. *)
Lemma number_formats v d g :
  is_number v = true ->
  exists s, Fmt.number v d g = Ok s /\ no_upper s = true.
Proof.
  destruct v as [| |z|f| | |]; try discriminate; intros H.
  - cbn [is_number] in H. cbn [Fmt.number].
    destruct (Fmt.float_of_int z) as [f|e]; [|discriminate].
    eexists; split; [reflexivity | apply float_no_upper].
  - eexists; split; [reflexivity | apply float_no_upper].
Qed.

(** The sign of an integer does not decide whether it fits a float. *)
Lemma float_of_int_abs z :
  is_number (JInt z) = true -> is_number (JInt (Z.abs z)) = true.
Proof.
  destruct z as [|p|p]; try (intros H; exact H).
  cbn [is_number Z.abs]. unfold Fmt.float_of_int, binary_normalize,
    binary_round, binary_round_aux.
  destruct (shl_align _ _ _) as [mz ez].
  destruct (shr_fexp _ _ _ _ _) as [mrs' e'].
  destruct (shr_fexp _ _ _ _ _) as [mrs'' e''].
  destruct (shr_m mrs'') as [|m|m]; try (intros H; exact H).
  destruct (e'' <=? 1024 - 53)%Z; intros H; exact H.
Qed.

Lemma abs_number v :
  is_number v = true ->
  exists w, Py.abs v = Ok w /\ is_number w = true.
Proof.
  destruct v as [| |z|f| | |]; try discriminate; intros H.
  - eexists; split; [reflexivity | now apply float_of_int_abs].
  - eexists; split; reflexivity.
Qed.

(** The glyph the code picks is the one of the number's sign. *)
Lemma change_symbol_of_number v :
  is_number v = true ->
  change_symbol_of v = Ok (glyph_of (number_sign v)).
Proof.
  destruct v as [| |z|f| | |]; try discriminate; intros _.
  - unfold change_symbol_of. cbn [Py.gt0 Py.lt0 rbind number_sign].
    destruct z; reflexivity.
  - unfold change_symbol_of. cbn [Py.gt0 Py.lt0 rbind number_sign].
    destruct f as [s|[]| |[] m e]; reflexivity.
Qed.

Lemma glyph_no_upper sign : no_upper (glyph_of sign) = true.
Proof. destruct sign as [[]|]; reflexivity. Qed.

End CaseFacts.

(** ** Occurrences of the currency code *)

Module OccFacts.
Import PyStr CaseFacts.

Lemma occ_hit needle c t :
  prefix needle (String c t) = true ->
  occurrences needle (String c t) = S (occurrences needle t).
Proof. intros H. cbn [occurrences]. now rewrite H. Qed.

Lemma occ_miss needle c t :
  prefix needle (String c t) = false ->
  occurrences needle (String c t) = occurrences needle t.
Proof. intros H. cbn [occurrences]. now rewrite H. Qed.

(** A stretch without capital letters holds no start of a code. *)
Lemma occ_skip a n v rest :
  is_upper a = true -> no_upper v = true ->
  occurrences (String a n) (v ++ rest) = occurrences (String a n) rest.
Proof.
  intros Ha. induction v as [|c v IH]; intros Hv; [reflexivity|].
  rewrite no_upper_cons in Hv. apply andb_prop in Hv as [Hc Hv].
  cbn [append]. rewrite occ_miss; [now apply IH|].
  rewrite PyStrFacts.prefix_cons, (plain_neq a c Ha Hc). reflexivity.
Qed.

(** Nor does a capitalised word followed by a plain character: only its
    first letter can be a capital. *)
Lemma occ_capitalized a b n x t c rest :
  is_upper b = true -> plain c = true ->
  occurrences (String a (String b n))
              (String x (lower t ++ String c rest))
  = occurrences (String a (String b n)) (lower t ++ String c rest).
Proof.
  intros Hb Hc. apply occ_miss.
  rewrite PyStrFacts.prefix_cons.
  destruct t as [|y t]; cbn [lower map_chars append];
    rewrite PyStrFacts.prefix_cons.
  - now rewrite (plain_neq b c Hb Hc), andb_false_r.
  - now rewrite (plain_neq b _ Hb (lower_char_plain y)), andb_false_r.
Qed.

Ltac count_step :=
  first
    [ rewrite occ_hit by reflexivity
    | rewrite occ_miss by reflexivity
    | rewrite occ_skip by (reflexivity || assumption || apply lower_no_upper)
    | rewrite occ_capitalized by reflexivity ].

(** The code of a supported currency occurs three times in the detail
    text: in the heading, after the price and after the market cap. *)
Lemma detail_text_occurrences id cur ps g cs ms :
  In cur SUPPORTED_CURRENCIES ->
  no_upper ps = true -> no_upper g = true -> no_upper cs = true ->
  no_upper ms = true ->
  occurrences (upper cur) (detail_text id cur ps g cs ms) = 3.
Proof.
  intros Hin Hps Hg Hcs Hms. unfold detail_text.
  cbn [SUPPORTED_CURRENCIES In] in Hin.
  repeat (destruct Hin as [<-|Hin]; [
    match goal with |- context [upper ?c] =>
      let u := eval vm_compute in (upper c) in change (upper c) with u
    end;
    destruct id as [|x t]; cbn [append capitalize];
    repeat count_step; reflexivity |]).
  contradiction.
Qed.

End OccFacts.

Module ContainsFacts.
Import PyStr.

Lemma contains_here needle rest : contains needle (needle ++ rest) = true.
Proof.
  destruct needle as [|c n].
  - destruct rest; reflexivity.
  - pose proof (PyStrFacts.prefix_app (String c n) rest) as H.
    cbn [append] in *. cbn [contains]. now rewrite H.
Qed.

Lemma contains_later needle p s :
  contains needle s = true -> contains needle (p ++ s) = true.
Proof.
  intros H. induction p as [|c p IH]; [exact H|].
  cbn [append contains]. rewrite IH. apply orb_true_r.
Qed.

End ContainsFacts.

(** ** The detail text *)

(** C1 (counterexample).  For the detail of scenario B in [usd] the text
    holds [USD] three times, not twice: the heading names the currency
    too. *)
Lemma currency_code_twice_counterexample :
  exists message,
    details_message "bitcoin" "usd" sample_detail = Ok message
    /\ message
       = "💰 Bitcoin (USD)" ++ String "010" ""
         ++ "Price: 65,000.50 USD" ++ String "010" ""
         ++ "24h Change: 🔻 2.30%" ++ String "010" ""
         ++ "Market Cap: 1,280,000,000,000 USD"
    /\ PyStr.occurrences "USD" message = 3
    /\ PyStr.occurrences (PyStr.upper "usd") message <> 2.
Proof.
  eexists. split; [vm_compute; reflexivity|].
  split; [reflexivity|]. split; [reflexivity|]. vm_compute. discriminate.
Qed.

(** C1 (amended).  For every supported currency and every detail whose
    price, 24h change and market cap are all present numbers, the text
    [show_crypto_details] sends is the detail text; it holds the
    upper-cased currency code exactly three times (heading, price line,
    market-cap line) and holds the directional glyph of the change: up when
    the change is above zero, down when it is below, flat when it is
    zero. *)
Theorem detail_text_code_and_glyph
        (crypto_id currency : string) (details price change_24h market_cap : json) :
  In currency SUPPORTED_CURRENCIES ->
  detail_fields currency details = Some (price, change_24h, market_cap) ->
  is_number price = true ->
  is_number change_24h = true ->
  is_number market_cap = true ->
  exists message glyph price_s change_s market_cap_s,
    details_message crypto_id currency details = Ok message
    /\ message = detail_text crypto_id currency price_s glyph change_s
                             market_cap_s
    /\ PyStr.occurrences (PyStr.upper currency) message = 3
    /\ PyStr.contains glyph message = true
    /\ (number_sign change_24h = Some Gt -> glyph = glyph_up)
    /\ (number_sign change_24h = Some Lt -> glyph = glyph_down)
    /\ (number_sign change_24h = Some Eq -> glyph = glyph_flat).
Proof.
  intros Hin Hf Hp Hc Hm.
  destruct details as [| | | | | |d]; try discriminate.
  cbn [detail_fields] in Hf.
  destruct (dict_find d currency) as [p|] eqn:Ep; [|discriminate].
  destruct (dict_find d (currency ++ "_24h_change")) as [c|] eqn:Ec;
    [|discriminate].
  destruct (dict_find d (currency ++ "_market_cap")) as [m|] eqn:Em;
    [|discriminate].
  injection Hf as -> -> ->.
  destruct (CaseFacts.number_formats price 2 true Hp) as [ps [Eps Hps]].
  destruct (CaseFacts.abs_number change_24h Hc) as [w [Ew Hw]].
  destruct (CaseFacts.number_formats w 2 false Hw) as [cs [Ecs Hcs]].
  destruct (CaseFacts.number_formats market_cap 0 true Hm) as [ms [Ems Hms]].
  exists (detail_text crypto_id currency ps (glyph_of (number_sign change_24h))
                      cs ms),
    (glyph_of (number_sign change_24h)), ps, cs, ms.
  split.
  { unfold details_message.
    destruct d as [|kv d']; [discriminate|].
    cbn [Py.truthy Py.get rbind]. unfold dict_get. rewrite Ep, Ec, Em.
    rewrite (CaseFacts.change_symbol_of_number _ Hc). cbn [rbind].
    rewrite Eps, Ew. cbn [rbind]. rewrite Ecs. cbn [rbind]. rewrite Ems.
    reflexivity. }
  split; [reflexivity|].
  split.
  { apply OccFacts.detail_text_occurrences; try assumption.
    apply CaseFacts.glyph_no_upper. }
  split.
  { unfold detail_text.
    do 12 apply ContainsFacts.contains_later.
    apply ContainsFacts.contains_here. }
  repeat split; intros ->; reflexivity.
Qed.

Lemma detail_text_code_and_glyph_witness :
  exists message,
    details_message "bitcoin" "usd" sample_detail = Ok message
    /\ PyStr.occurrences "USD" message = 3
    /\ PyStr.contains glyph_down message = true.
Proof.
  destruct (detail_text_code_and_glyph
              "bitcoin" "usd" sample_detail
              (JFloat float_65000_5) (JFloat float_minus_2_3)
              (JInt 1280000000000)
              (or_introl eq_refl) eq_refl eq_refl eq_refl eq_refl)
    as [message [glyph [ps [cs [ms [Hm [_ [Hocc [Hcont [_ [Hdown _]]]]]]]]]]].
  exists message. split; [exact Hm|]. split; [exact Hocc|].
  rewrite <- (Hdown eq_refl). exact Hcont.
Defined.

(** ** Failures of the remote service *)

(** C4 (counterexample).  Two failures that do not degrade to an empty
    result.  A trending answer whose body decodes to a list instead of an
    object makes [get_trending_cryptos] raise [AttributeError], which no
    handler catches: the press on [trending] ends in the error handler.
    And the search does not look at the status code: a 500 answer whose
    body lists coins is shown as a search result. *)
Lemma failures_degrade_counterexample :
  get_trending_cryptos (net_constant 200 (Some (JList []))) true empty_store
  = (empty_store, Raise AttributeError)
  /\ process_update (net_constant 200 (Some (JList []))) true repr_none
       (session_in MAIN_MENU) (CallbackQuery "trending")
     = {| state := Some MAIN_MENU;
          mem := {| user_data := [];
                    sent := [Answer;
                             EditMessageText
                               "Fetching trending cryptocurrencies, please wait..."
                               None];
                    logged := [("Update caused error", AttributeError)] |} |}
  /\ snd (handle_message (net_constant 500 (Some coins_body)) true repr_none
            (TextMessage "coin") empty_store)
     = Ok (Some CHOOSING_CRYPTO)
  /\ exists markup,
       sent (fst (handle_message (net_constant 500 (Some coins_body)) true
                    repr_none (TextMessage "coin") empty_store))
       = [ReplyText "Search Results:" (Some markup)]
       /\ map (map callback_data) markup
          = [["crypto:bitcoin"; "crypto:ethereum"]; ["main_menu"]].
Proof.
  split; [reflexivity|]. split; [reflexivity|]. split; [reflexivity|].
  eexists. split; reflexivity.
Qed.

(** C4 (amended).  When the request of an operation fails in a way the
    operation catches -- the service is unreachable; for the three fetch
    operations, the status is 4xx or 5xx; the body does not decode and the
    decode error is a [RequestException] -- nothing is raised: the fetch
    operations log the failure and return the empty list or the empty
    object, and the search, inside [handle_message], logs it, answers with
    the error notice and the main menu and returns [MAIN_MENU]. *)
Theorem caught_failures_degrade
        (net : request -> http_outcome) (jre : bool) (repr : json -> string)
        (op : operation) (s : store) :
  request_fails net jre op ->
  exists e, degrades net jre repr op s e.
Proof.
  assert (Hsent : forall (l : list action) a b,
             ((l ++ [a]) ++ [b] = l ++ [a; b])%list)
    by (intros; now rewrite <- app_assoc).
  intros [H | [[Hop [c [b [H Hc]]]] | [Hj [c H]]]].
  - exists ConnectionError.
    destruct op; unfold degrades, operation_request, detail_request in *;
      unfold get_top_cryptos, get_trending_cryptos, get_crypto_details,
        handle_message, try_except, requests_get;
      cbn [message_text]; run_monad; cbv zeta; rewrite H;
      cbn [rbind is_RequestException show_main_menu]; run_monad;
      unfold add_sent, add_logged; cbn [user_data sent logged];
      rewrite ?Hsent; reflexivity.
  - exists HTTPError. unfold error_status in Hc.
    destruct op; try discriminate;
      unfold degrades, operation_request, detail_request in *;
      unfold get_top_cryptos, get_trending_cryptos, get_crypto_details,
        try_except, requests_get, raise_for_status;
      run_monad; rewrite H; cbn [rbind status_code]; rewrite Hc; reflexivity.
  - exists (if error_status c && checks_status op
            then HTTPError else JSONDecodeError).
    subst jre. unfold error_status.
    destruct op; unfold degrades, operation_request, detail_request in *;
      unfold get_top_cryptos, get_trending_cryptos, get_crypto_details,
        handle_message, try_except, requests_get, raise_for_status;
      cbn [message_text]; run_monad; cbv zeta; rewrite H;
      cbn [rbind status_code checks_status body_json response_json];
      rewrite ?andb_true_r, ?andb_false_r;
      try (destruct ((400 <=? c)%Z && (c <? 600)%Z));
      cbn [rbind is_RequestException show_main_menu body_json response_json];
      run_monad; unfold add_sent, add_logged; cbn [user_data sent logged];
      rewrite ?Hsent; reflexivity.
Qed.

Lemma caught_failures_degrade_witness :
  (exists e, get_top_cryptos net_down true 100 empty_store
             = (add_logged empty_store [("Error fetching top cryptos", e)],
                Ok (JList [])))
  /\ (exists e, get_crypto_details (net_constant 503 None) false
                  "bitcoin" "usd" empty_store
                = (add_logged empty_store
                     [("Error fetching crypto details for bitcoin", e)],
                   Ok (JObj [])))
  /\ (exists e, snd (handle_message (net_constant 200 None) true repr_none
                       (TextMessage "Doge") empty_store)
                = Ok (Some MAIN_MENU)
                /\ logged (fst (handle_message (net_constant 200 None) true
                                  repr_none (TextMessage "Doge") empty_store))
                   = [("Error searching for cryptocurrency", e)]).
Proof.
  split; [|split].
  - apply (caught_failures_degrade net_down true repr_none
             (fetchTopCoins 100) empty_store).
    left. reflexivity.
  - apply (caught_failures_degrade (net_constant 503 None) false repr_none
             (fetchCoinDetail "bitcoin" "usd") empty_store).
    right. left. split; [reflexivity|].
    exists 503%Z, None. split; reflexivity.
  - destruct (caught_failures_degrade (net_constant 200 None) true repr_none
                (searchCoins "Doge") empty_store) as [e He].
    + right. right. split; [reflexivity|]. exists 200%Z. reflexivity.
    + exists e. cbn [degrades] in He. rewrite He. split; reflexivity.
Defined.

(** ** Details with a field missing *)

(** A detail that is not empty but lacks one of the three fields is never
    rendered: the ["N/A"] default meets a numeric comparison or a numeric
    format spec, and [details_message] raises. *)
Lemma absent_field_raises crypto_id currency d :
  Py.truthy (JObj d) = true ->
  detail_fields currency (JObj d) = None ->
  exists e, details_message crypto_id currency (JObj d) = Raise e.
Proof.
  intros Ht Hf. unfold details_message. rewrite Ht.
  cbn [Py.get rbind]. unfold dict_get. cbn [detail_fields] in Hf.
  destruct (dict_find d currency) as [p|].
  - destruct (dict_find d (currency ++ "_24h_change")) as [c|].
    + destruct (dict_find d (currency ++ "_market_cap")) as [m|];
        [discriminate|].
      destruct (change_symbol_of c) as [g|e]; [|now exists e]. cbn [rbind].
      destruct (Fmt.number p 2 true) as [ps|e]; [|now exists e]. cbn [rbind].
      destruct (Py.abs c) as [w|e]; [|now exists e]. cbn [rbind].
      destruct (Fmt.number w 2 false) as [cs|e]; [|now exists e]. cbn [rbind].
      now exists ValueError.
    + now exists TypeError.
  - destruct (change_symbol_of _) as [g|e]; [|now exists e].
    now exists ValueError.
Qed.

(** C3 (failing input).  The detail [{usd: 65000.5, usd_market_cap:
    1280000000000}], without its 24h change: the ["N/A"] default is
    compared with [0] and [TypeError] is raised.  A press on
    [currency:usd] then sends no text, leaves the conversation in
    [CHOOSING_CURRENCY] and ends in the error handler. *)
Theorem missing_change_raises_type_error :
  Py.truthy partial_detail = true
  /\ dict_get [("usd", JFloat float_65000_5);
               ("usd_market_cap", JInt 1280000000000)]
              "usd_24h_change" (JStr "N/A")
     = JStr "N/A"
  /\ details_message "bitcoin" "usd" partial_detail = Raise TypeError
  /\ process_update (net_serving partial_detail) true repr_none
       (session_with_coin CHOOSING_CURRENCY "bitcoin")
       (CallbackQuery "currency:usd")
     = {| state := Some CHOOSING_CURRENCY;
          mem := {| user_data := [("crypto", "bitcoin")];
                    sent := [Answer];
                    logged := [("Update caused error", TypeError)] |} |}.
Proof. repeat split. Qed.

(** ** The round trip through the three menus *)

Lemma add_logged_nil s : add_logged s [] = s.
Proof. destruct s; unfold add_logged; simpl; now rewrite app_nil_r. Qed.

Section RoundTrip.
Variable net : request -> http_outcome.
Variable jre : bool.
Variable repr : json -> string.

(** The fetches depend on the store only to append to its log. *)
Lemma get_top_cryptos_run limit s :
  get_top_cryptos net jre limit s
  = (add_logged s (logged (fst (get_top_cryptos net jre limit empty_store))),
     snd (get_top_cryptos net jre limit empty_store)).
Proof.
  unfold get_top_cryptos, try_except.
  match goal with |- context [rbind (requests_get ?n ?u ?p) ?k] =>
    generalize (rbind (requests_get n u p) k); intros r end.
  destruct r as [j|e]; run_monad;
    [|destruct (is_RequestException jre e)];
    unfold empty_store; run_monad; cbn [app];
    now rewrite ?add_logged_nil.
Qed.

Lemma get_crypto_details_run id cur s :
  get_crypto_details net jre id cur s
  = (add_logged s
       (logged (fst (get_crypto_details net jre id cur empty_store))),
     snd (get_crypto_details net jre id cur empty_store)).
Proof.
  unfold get_crypto_details, try_except.
  match goal with |- context [rbind (requests_get ?n ?u ?p) ?k] =>
    generalize (rbind (requests_get n u p) k); intros r end.
  destruct r as [j|e]; run_monad;
    [|destruct (is_RequestException jre e)];
    unfold empty_store; run_monad; cbn [app];
    now rewrite ?add_logged_nil.
Qed.

(** [top100] leads to [CHOOSING_CRYPTO] when the list fetch yields coin
    summaries, the empty list of a failed fetch among them. *)
Lemma button_click_top100 cryptos s :
  snd (get_top_cryptos net jre 100 empty_store) = Ok (JList cryptos) ->
  forallb is_coin_summary cryptos = true ->
  exists s', button_click net jre repr (CallbackQuery "top100") s
             = (s', Ok (Some CHOOSING_CRYPTO))
             /\ user_data s' = user_data s.
Proof.
  intros Hfetch Hsum. unfold button_click, show_crypto_list.
  cbn [String.eqb Ascii.eqb Bool.eqb]. run_monad.
  rewrite get_top_cryptos_run, Hfetch.
  rewrite (keyboard_of_summaries repr cryptos Hsum). run_monad.
  eexists. split; reflexivity.
Qed.

(** [currency:<code>] leads to [MAIN_MENU] when the detail text renders,
    and raises when it does not. *)
Lemma button_click_currency_outcome payload s details :
  let id := dict_get (user_data s) "crypto" "bitcoin" in
  let cur := hd EmptyString (PyStr.split ":" payload) in
  snd (get_crypto_details net jre id cur empty_store) = Ok details ->
  exists s',
    button_click net jre repr (CallbackQuery ("currency:" ++ payload)) s
    = (s', match details_message id cur details with
           | Ok _ => Ok (Some MAIN_MENU)
           | Raise e => Raise e
           end)
    /\ user_data s' = user_data s.
Proof.
  cbv zeta. intros Hfetch. rewrite button_click_currency.
  unfold show_crypto_details. run_monad.
  rewrite get_crypto_details_run, Hfetch.
  destruct (details_message _ _ details) as [m|e]; run_monad;
    eexists; split; reflexivity.
Qed.

(** From [MAIN_MENU], [top100], then a coin, then a currency: the
    machine goes through [CHOOSING_CRYPTO] and [CHOOSING_CURRENCY], and is
    back in [MAIN_MENU] exactly when the detail text renders; when it
    does not, the third press leaves it in [CHOOSING_CURRENCY]. *)
Lemma round_trip ss cryptos id_payload code_payload details :
  let id := hd EmptyString (PyStr.split ":" id_payload) in
  let cur := hd EmptyString (PyStr.split ":" code_payload) in
  state ss = Some MAIN_MENU ->
  snd (get_top_cryptos net jre 100 empty_store) = Ok (JList cryptos) ->
  forallb is_coin_summary cryptos = true ->
  snd (get_crypto_details net jre id cur empty_store) = Ok details ->
  let s1 := process_update net jre repr ss (CallbackQuery "top100") in
  let s2 := process_update net jre repr s1
              (CallbackQuery ("crypto:" ++ id_payload)) in
  let s3 := process_update net jre repr s2
              (CallbackQuery ("currency:" ++ code_payload)) in
  state s1 = Some CHOOSING_CRYPTO
  /\ state s2 = Some CHOOSING_CURRENCY
  /\ state s3 = match details_message id cur details with
                | Ok _ => Some MAIN_MENU
                | Raise _ => Some CHOOSING_CURRENCY
                end.
Proof.
  cbv zeta. intros Hst Htop Hsum Hdet.
  destruct (button_click_top100 cryptos (mem ss) Htop Hsum) as [m1 [H1 _]].
  assert (E1 : process_update net jre repr ss (CallbackQuery "top100")
               = {| state := Some CHOOSING_CRYPTO; mem := m1 |}).
  { unfold process_update. rewrite select_callback, Hst, H1. reflexivity. }
  rewrite E1.
  assert (E2 : process_update net jre repr
                 {| state := Some CHOOSING_CRYPTO; mem := m1 |}
                 (CallbackQuery ("crypto:" ++ id_payload))
               = {| state := Some CHOOSING_CURRENCY;
                    mem := fst (button_click net jre repr
                                  (CallbackQuery ("crypto:" ++ id_payload))
                                  m1) |}).
  { unfold process_update. rewrite select_callback. cbn [state mem].
    now rewrite button_click_crypto. }
  rewrite E2. split; [reflexivity|]. split; [reflexivity|].
  rewrite button_click_crypto. cbn [fst].
  match goal with |- context [process_update _ _ _ {| state := _; mem := ?m |}] =>
    set (m2 := m) end.
  assert (Hid : dict_get (user_data m2) "crypto" "bitcoin"
                = hd EmptyString (PyStr.split ":" id_payload))
    by apply dict_get_set_same.
  destruct (button_click_currency_outcome code_payload m2 details)
    as [m3 [H3 _]]; [now rewrite Hid|].
  unfold process_update. rewrite select_callback. cbn [state mem].
  rewrite H3, Hid. clear H3.
  match goal with |- context [details_message ?i ?c ?d] =>
    destruct (details_message i c d) end; reflexivity.
Qed.

End RoundTrip.

(** The default coin.  A press on [currency:<code>] in a session that
    never stored a coin id runs as it does for a session that had chosen
    [bitcoin] (same result, same messages, same log): [bitcoin] is the id
    handed to the detail lookup.  Whether the handler then returns
    [MAIN_MENU] is decided by the rendering of the detail text, as for any
    coin. *)
Lemma currency_without_coin_uses_bitcoin
        (net : request -> http_outcome) (jre : bool) (repr : json -> string)
        (payload : string) (s s' : store) :
  dict_find (user_data s) "crypto" = None ->
  user_data s' = dict_set (user_data s) "crypto" "bitcoin" ->
  sent s' = sent s ->
  logged s' = logged s ->
  let u := CallbackQuery ("currency:" ++ payload) in
  let currency := hd EmptyString (PyStr.split ":" payload) in
  button_click net jre repr u s
  = (send Answer ;;;
     show_crypto_details net jre u "bitcoin" currency ;;;
     ret (Some MAIN_MENU)) s
  /\ snd (button_click net jre repr u s) = snd (button_click net jre repr u s')
  /\ sent (fst (button_click net jre repr u s))
     = sent (fst (button_click net jre repr u s'))
  /\ logged (fst (button_click net jre repr u s))
     = logged (fst (button_click net jre repr u s'))
  /\ (forall details message,
         snd (get_crypto_details net jre "bitcoin" currency empty_store)
         = Ok details ->
         details_message "bitcoin" currency details = Ok message ->
         snd (button_click net jre repr u s) = Ok (Some MAIN_MENU)).
Proof.
  intros Hnone Hud Hsent Hlog. cbv zeta.
  assert (Hid : dict_get (user_data s) "crypto" "bitcoin" = "bitcoin")
    by now apply dict_get_absent.
  split; [now rewrite button_click_currency, Hid|].
  assert (Hlast : forall details message,
             snd (get_crypto_details net jre "bitcoin"
                    (hd EmptyString (PyStr.split ":" payload)) empty_store)
             = Ok details ->
             details_message "bitcoin"
               (hd EmptyString (PyStr.split ":" payload)) details
             = Ok message ->
             snd (button_click net jre repr
                    (CallbackQuery ("currency:" ++ payload)) s)
             = Ok (Some MAIN_MENU)).
  { intros details message Hd Hm.
    destruct (button_click_currency_outcome net jre repr payload s details)
      as [m [Hb _]]; [now rewrite Hid|].
    rewrite Hb, Hid, Hm. reflexivity. }
  match goal with |- ?B /\ ?C /\ ?D /\ _ =>
    cut (B /\ C /\ D);
    [intros [HB [HC HD]];
     split; [exact HB | split; [exact HC | split; [exact HD | exact Hlast]]]
    |]
  end.
  clear Hlast. rewrite !button_click_currency.
  rewrite Hid, Hud, dict_get_set_same.
  unfold show_crypto_details, get_crypto_details, try_except.
  match goal with |- context [rbind (requests_get ?n ?u ?p) ?k] =>
    generalize (rbind (requests_get n u p) k); intros r end.
  run_monad. rewrite Hsent, Hlog.
  destruct r as [j|e]; [|destruct (is_RequestException jre e)];
    run_monad; try (repeat split; fail);
    match goal with |- context [details_message ?i ?c ?d] =>
      destruct (details_message i c d) end; repeat split.
Qed.

Lemma currency_without_coin_uses_bitcoin_witness :
  let u := CallbackQuery "currency:usd" in
  let net := net_serving sample_detail in
  button_click net true repr_none u empty_store
  = (send Answer ;;;
     show_crypto_details net true u "bitcoin" "usd" ;;;
     ret (Some MAIN_MENU)) empty_store
  /\ snd (button_click net true repr_none u empty_store)
     = snd (button_click net true repr_none u
              (mem (session_with_coin CHOOSING_CURRENCY "bitcoin")))
  /\ snd (button_click net true repr_none u empty_store)
     = Ok (Some MAIN_MENU).
Proof.
  destruct (currency_without_coin_uses_bitcoin
              (net_serving sample_detail) true repr_none "usd" empty_store
              (mem (session_with_coin CHOOSING_CURRENCY "bitcoin"))
              eq_refl eq_refl eq_refl eq_refl)
    as [Hrun [Hres [_ [_ Hmenu]]]].
  cbv zeta. split; [exact Hrun|]. split; [exact Hres|].
  apply (Hmenu sample_detail
           (detail_text "bitcoin" "usd" "65,000.50" glyph_down "2.30"
                        "1,280,000,000,000"));
    reflexivity.
Defined.


(** C5 (failing input).  From [MAIN_MENU], [top100], [crypto:bitcoin] and
    [currency:usd], with a detail fetch that answers without the 24h
    change: the states after the three presses are [CHOOSING_CRYPTO],
    [CHOOSING_CURRENCY] and [CHOOSING_CURRENCY] again -- the third press
    raises [TypeError] and the machine does not return to [MAIN_MENU]. *)
Theorem round_trip_stuck_on_partial_detail :
  let net := net_serving partial_detail in
  let s1 := process_update net true repr_none (session_in MAIN_MENU)
              (CallbackQuery "top100") in
  let s2 := process_update net true repr_none s1
              (CallbackQuery "crypto:bitcoin") in
  let s3 := process_update net true repr_none s2
              (CallbackQuery "currency:usd") in
  state s1 = Some CHOOSING_CRYPTO
  /\ state s2 = Some CHOOSING_CURRENCY
  /\ state s3 = Some CHOOSING_CURRENCY
  /\ state s3 <> Some MAIN_MENU
  /\ logged (mem s3) = [("Update caused error", TypeError)].
Proof. cbv zeta. repeat split. discriminate. Qed.

(** ** The scenarios of the specification *)

(** Scenario A: [/start] shows the three options of the main menu; on
    [top100] the two coins make one row of two, then the back row. *)
Example scenario_A :
  let ss := process_updates (net_serving sample_detail) true repr_none
              new_session [Command "start"; CallbackQuery "top100"] in
  state ss = Some CHOOSING_CRYPTO
  /\ map (fun a => match a with
                   | ReplyText _ (Some k) | EditMessageText _ (Some k) =>
                       map (map callback_data) k
                   | _ => []
                   end)
         (rendered (sent (mem ss)))
     = [[["top100"]; ["trending"]; ["search"]];
        [];
        [["crypto:bitcoin"; "crypto:ethereum"]; ["main_menu"]]].
Proof. split; reflexivity. Qed.

(** Scenario C: a search without result says so, shows the main menu and
    returns to [MAIN_MENU]. *)
Example scenario_C :
  process_update (net_constant 200 (Some (JObj [("coins", JList [])]))) true
    repr_none (session_in TYPING_SEARCH) (TextMessage "dogecoin")
  = {| state := Some MAIN_MENU;
       mem := {| user_data := [];
                 sent := [ReplyText
                            "Sorry, I couldn't find any cryptocurrency matching your search."
                            None;
                          ReplyText welcome (Some main_menu_keyboard)];
                 logged := [] |} |}.
Proof. reflexivity. Qed.

(** Scenario D: a detail fetch that fails in transport is answered with the
    not-found message, and the machine returns to [MAIN_MENU]. *)
Example scenario_D :
  process_update net_down true repr_none
    (session_with_coin CHOOSING_CURRENCY "bitcoin")
    (CallbackQuery "currency:usd")
  = {| state := Some MAIN_MENU;
       mem := {| user_data := [("crypto", "bitcoin")];
                 sent := [Answer;
                          EditMessageText (not_found "bitcoin")
                                          (Some [back_row])];
                 logged := [("Error fetching crypto details for bitcoin",
                             ConnectionError)] |} |}.
Proof. reflexivity. Qed.

(** * Further properties of the program *)

(** ** Computations that only append *)

Module TameFacts.

Lemma tame_weaken ud P (Q Q' : exn -> Prop) {A} (m : M A) :
  (forall e, Q e -> Q' e) -> tame ud P Q m -> tame ud P Q' m.
Proof.
  intros HQ H s. destruct (H s) as [Hu [Hs [Hl He]]].
  repeat split; auto.
Qed.

Lemma tame_forget ud P Q {A} (m : M A) :
  tame true P Q m -> tame ud P Q m.
Proof.
  intros H s. destruct (H s) as [Hu [Hs [Hl He]]].
  repeat split; auto.
Qed.

Lemma tame_ret ud P Q {A} (a : A) : tame ud P Q (ret a).
Proof.
  intros s. cbn. repeat split.
  - exists []. now rewrite app_nil_r.
  - exists []. now rewrite app_nil_r.
  - discriminate.
Qed.

Lemma tame_lift ud P (Q : exn -> Prop) {A} (r : result A) :
  (forall e, r = Raise e -> Q e) -> tame ud P Q (lift r).
Proof.
  intros H s. cbn. repeat split.
  - exists []. now rewrite app_nil_r.
  - exists []. now rewrite app_nil_r.
  - exact H.
Qed.

Lemma tame_raise ud P (Q : exn -> Prop) {A} e : Q e -> tame ud P Q (@raise A e).
Proof.
  intros H s. cbn. repeat split.
  - exists []. now rewrite app_nil_r.
  - exists []. now rewrite app_nil_r.
  - now intros e' [= <-].
Qed.

Lemma tame_send ud (P : action -> Prop) Q a : P a -> tame ud P Q (send a).
Proof.
  intros H s. cbn. repeat split.
  - exists [a]. split; [reflexivity | now constructor].
  - exists []. now rewrite app_nil_r.
  - discriminate.
Qed.

Lemma tame_log_error ud P Q msg e : tame ud P Q (log_error msg e).
Proof.
  intros s. cbn. repeat split.
  - exists []. now rewrite app_nil_r.
  - now exists [(msg, e)].
  - discriminate.
Qed.

Lemma tame_get_user_data ud P Q : tame ud P Q get_user_data.
Proof.
  intros s. cbn. repeat split.
  - exists []. now rewrite app_nil_r.
  - exists []. now rewrite app_nil_r.
  - discriminate.
Qed.

Lemma tame_set_user_data P Q k v : tame false P Q (set_user_data k v).
Proof.
  intros s. cbn. repeat split.
  - discriminate.
  - exists []. now rewrite app_nil_r.
  - exists []. now rewrite app_nil_r.
  - discriminate.
Qed.

Lemma tame_bind ud P Q {A B} (m : M A) (k : A -> M B) :
  tame ud P Q m -> (forall a, tame ud P Q (k a)) -> tame ud P Q (bind m k).
Proof.
  intros Hm Hk s. unfold bind.
  destruct (Hm s) as [Hu [[l1 [Hs1 Hp1]] [[g1 Hl1] He]]].
  destruct (m s) as [s1 [a|e]]; cbn [fst snd] in *.
  - destruct (Hk a s1) as [Hu2 [[l2 [Hs2 Hp2]] [[g2 Hl2] He2]]].
    repeat split.
    + intros Hud. now rewrite (Hu2 Hud), (Hu Hud).
    + exists (l1 ++ l2)%list. split.
      * now rewrite Hs2, Hs1, app_assoc.
      * now apply Forall_app.
    + exists (g1 ++ g2)%list. now rewrite Hl2, Hl1, app_assoc.
    + exact He2.
  - split; [exact Hu|]. split; [now exists l1|]. split; [now exists g1|].
    intros e' [= <-]. now apply He.
Qed.

Lemma tame_edit_message_text ud (P : action -> Prop) (Q : exn -> Prop) u body k :
  P (EditMessageText body k) -> Q AttributeError ->
  tame ud P Q (edit_message_text u body k).
Proof.
  intros HP HQ. destruct u; cbn [edit_message_text];
    (now apply tame_send) || now apply tame_raise.
Qed.

Lemma tame_reply_text ud (P : action -> Prop) (Q : exn -> Prop) u body k :
  P (ReplyText body k) -> Q AttributeError ->
  tame ud P Q (reply_text u body k).
Proof.
  intros HP HQ. destruct u; cbn [reply_text];
    (now apply tame_send) || now apply tame_raise.
Qed.

(** [try ... except RequestException]: whatever the body raises, what
    leaves the statement is not a request exception, provided the handler's
    own exceptions are not. *)
Lemma tame_try_except jre ud P {A} (body : M A) (h : exn -> M A) :
  tame ud P (fun _ => True) body ->
  (forall e, tame ud P (not_request jre) (h e)) ->
  tame ud P (not_request jre)
       (try_except jre body h).
Proof.
  intros Hb Hh s. unfold try_except.
  destruct (Hb s) as [Hu [[l1 [Hs1 Hp1]] [[g1 Hl1] _]]].
  destruct (body s) as [s1 [a|e]]; cbn [fst snd] in *.
  - split; [exact Hu|]. split; [now exists l1|]. split; [now exists g1|].
    discriminate.
  - destruct (is_RequestException jre e) eqn:E.
    + destruct (Hh e s1) as [Hu2 [[l2 [Hs2 Hp2]] [[g2 Hl2] He2]]].
      repeat split.
      * intros Hud. now rewrite (Hu2 Hud), (Hu Hud).
      * exists (l1 ++ l2)%list. split.
        -- now rewrite Hs2, Hs1, app_assoc.
        -- now apply Forall_app.
      * exists (g1 ++ g2)%list. now rewrite Hl2, Hl1, app_assoc.
      * exact He2.
    + split; [exact Hu|]. split; [now exists l1|]. split; [now exists g1|].
      now intros e' [= <-].
Qed.

Lemma internal_not_request jre e :
  is_internal e = true -> is_RequestException jre e = false.
Proof. destruct e; (discriminate || reflexivity). Qed.

End TameFacts.

(** ** Exceptions of the pure parts *)

Module InternalFacts.

Lemma ri_ok {A} (a : A) : raises_internal (Ok a).
Proof. intros e H. discriminate. Qed.

Lemma ri_raise {A} e : is_internal e = true -> raises_internal (@Raise A e).
Proof. now intros H e' [= <-]. Qed.

Lemma ri_rbind {A B} (r : result A) (k : A -> result B) :
  raises_internal r -> (forall a, r = Ok a -> raises_internal (k a)) ->
  raises_internal (rbind r k).
Proof.
  intros Hr Hk. destruct r as [a|e]; cbn [rbind].
  - now apply Hk.
  - intros e' [= <-]. now apply Hr.
Qed.

Lemma ri_for_each {A B} (f : A -> result B) l :
  (forall a, raises_internal (f a)) -> raises_internal (Py.for_each f l).
Proof.
  intros Hf. induction l as [|a l IH]; cbn [Py.for_each].
  - apply ri_ok.
  - apply ri_rbind; [apply Hf|]. intros b _.
    apply ri_rbind; [exact IH|]. intros bs _. apply ri_ok.
Qed.

Ltac by_cases v :=
  destruct v; cbn; first [apply ri_ok | now apply ri_raise].

Lemma ri_get v k d : raises_internal (Py.get v k d).
Proof. by_cases v. Qed.

Lemma ri_len v : raises_internal (Py.len v).
Proof. by_cases v. Qed.

Lemma ri_slice v i j : raises_internal (Py.slice v i j).
Proof. by_cases v. Qed.

Lemma ri_iter v : raises_internal (Py.iter v).
Proof. by_cases v. Qed.

Lemma ri_upper v : raises_internal (Py.upper v).
Proof. by_cases v. Qed.

Lemma ri_gt0 v : raises_internal (Py.gt0 v).
Proof. by_cases v. Qed.

Lemma ri_lt0 v : raises_internal (Py.lt0 v).
Proof. by_cases v. Qed.

Lemma ri_abs v : raises_internal (Py.abs v).
Proof. by_cases v. Qed.

Lemma ri_index {A} (l : list A) i : raises_internal (Py.index l i).
Proof.
  unfold Py.index. destruct (nth_error l i);
    [apply ri_ok | now apply ri_raise].
Qed.

Lemma ri_float_of_int z : raises_internal (Fmt.float_of_int z).
Proof.
  unfold Fmt.float_of_int.
  destruct (binary_normalize 53 1024 z 0 false);
    first [apply ri_ok | now apply ri_raise].
Qed.

Lemma ri_number v d g : raises_internal (Fmt.number v d g).
Proof.
  destruct v; cbn [Fmt.number];
    try (first [apply ri_ok | now apply ri_raise]);
    (apply ri_rbind; [apply ri_float_of_int | intros; apply ri_ok]).
Qed.

Lemma ri_message_text u : raises_internal (message_text u).
Proof. by_cases u. Qed.

Lemma ri_crypto_button repr c : raises_internal (crypto_button repr c).
Proof.
  unfold crypto_button.
  repeat (apply ri_rbind;
          [first [apply ri_get | apply ri_upper] | intros ? _]).
  apply ri_ok.
Qed.

Lemma ri_crypto_list_keyboard repr cryptos :
  raises_internal (crypto_list_keyboard repr cryptos).
Proof.
  unfold crypto_list_keyboard.
  apply ri_rbind; [apply ri_len | intros n _].
  apply ri_rbind; [|intros; apply ri_ok].
  apply ri_for_each. intros i.
  apply ri_rbind; [apply ri_slice | intros part _].
  apply ri_rbind; [apply ri_iter | intros items _].
  apply ri_for_each, ri_crypto_button.
Qed.

Lemma ri_change_symbol_of v : raises_internal (change_symbol_of v).
Proof.
  unfold change_symbol_of.
  apply ri_rbind; [apply ri_gt0 | intros [] _]; [apply ri_ok|].
  apply ri_rbind; [apply ri_lt0 | intros [] _]; apply ri_ok.
Qed.

Lemma ri_details_message id cur details :
  raises_internal (details_message id cur details).
Proof.
  unfold details_message. destruct (Py.truthy details); [|apply ri_ok].
  repeat (apply ri_rbind;
          [first [apply ri_get | apply ri_change_symbol_of
                 | apply ri_number | apply ri_abs] | intros ? _]).
  apply ri_ok.
Qed.

(** A keyboard of [show_crypto_list] ends with the back row. *)
Lemma keyboard_ends_with_back repr cryptos k :
  crypto_list_keyboard repr cryptos = Ok k ->
  exists rows, k = (rows ++ [back_row])%list.
Proof.
  unfold crypto_list_keyboard.
  destruct (Py.len cryptos) as [n|]; [|discriminate]. cbn [rbind].
  destruct (Py.for_each _ _) as [rows|]; [|discriminate]. cbn [rbind].
  intros [= <-]. now exists rows.
Qed.

End InternalFacts.

(** ** The handlers only append, and raise no request exception *)

Section Handlers.
Variable net : request -> http_outcome.
Variable jre : bool.
Variable repr : json -> string.

Lemma tame_bind_lift ud P (Q : exn -> Prop) {A B}
      (r : result A) (k : A -> M B) :
  (forall e, r = Raise e -> Q e) ->
  (forall a, r = Ok a -> tame ud P Q (k a)) ->
  tame ud P Q (bind (lift r) k).
Proof.
  intros Hr Hk. destruct r as [a|e].
  - intros s. unfold bind, lift. now apply Hk.
  - intros s. unfold bind, lift. cbn [fst snd]. repeat split.
    + exists []. now rewrite app_nil_r.
    + exists []. now rewrite app_nil_r.
    + intros e' [= <-]. now apply Hr.
Qed.

Lemma internal_result {A} (r : result A) :
  raises_internal r -> forall e, r = Raise e -> (not_request jre) e.
Proof.
  intros H e He. apply TameFacts.internal_not_request. now apply H.
Qed.

(** The three fetches: whatever the service does. *)
Lemma get_top_cryptos_tame P limit :
  tame true P (not_request jre) (get_top_cryptos net jre limit).
Proof.
  apply TameFacts.tame_try_except.
  - now apply TameFacts.tame_lift.
  - intros e. apply TameFacts.tame_bind;
      [apply TameFacts.tame_log_error | intros; apply TameFacts.tame_ret].
Qed.

Lemma get_trending_cryptos_tame P :
  tame true P (not_request jre) (get_trending_cryptos net jre).
Proof.
  apply TameFacts.tame_try_except.
  - now apply TameFacts.tame_lift.
  - intros e. apply TameFacts.tame_bind;
      [apply TameFacts.tame_log_error | intros; apply TameFacts.tame_ret].
Qed.

Lemma get_crypto_details_tame P id cur :
  tame true P (not_request jre) (get_crypto_details net jre id cur).
Proof.
  apply TameFacts.tame_try_except.
  - now apply TameFacts.tame_lift.
  - intros e. apply TameFacts.tame_bind;
      [apply TameFacts.tame_log_error | intros; apply TameFacts.tame_ret].
Qed.

Lemma show_main_menu_tame (Q : exn -> Prop) u :
  Q AttributeError -> tame true menu_ok Q (show_main_menu u).
Proof.
  intros HQ. unfold show_main_menu.
  destruct u;
    first [apply TameFacts.tame_edit_message_text
          | apply TameFacts.tame_reply_text];
    cbn; auto.
Qed.

Lemma show_crypto_list_tame u cryptos title :
  tame true menu_ok (not_request jre) (show_crypto_list repr u cryptos title).
Proof.
  unfold show_crypto_list. apply tame_bind_lift.
  - apply internal_result, InternalFacts.ri_crypto_list_keyboard.
  - intros k Hk. apply InternalFacts.keyboard_ends_with_back in Hk.
    destruct u;
      first [apply TameFacts.tame_edit_message_text
            | apply TameFacts.tame_reply_text];
      first [reflexivity | cbn [menu_ok]; now right].
Qed.

Lemma show_currency_options_tame u :
  tame true menu_ok (not_request jre) (show_currency_options u).
Proof.
  apply TameFacts.tame_edit_message_text; [|reflexivity].
  cbn [menu_ok]. right. unfold currency_keyboard. eauto.
Qed.

Lemma show_crypto_details_tame u id cur :
  tame true menu_ok (not_request jre) (show_crypto_details net jre u id cur).
Proof.
  unfold show_crypto_details.
  apply TameFacts.tame_bind; [apply get_crypto_details_tame|].
  intros details. apply tame_bind_lift.
  - apply internal_result, InternalFacts.ri_details_message.
  - intros message _. apply TameFacts.tame_edit_message_text; [|reflexivity].
    cbn [menu_ok]. right. now exists [].
Qed.

Lemma start_tame u : tame true menu_ok (not_request jre) (start u).
Proof.
  unfold start. apply TameFacts.tame_bind;
    [now apply show_main_menu_tame | intros; apply TameFacts.tame_ret].
Qed.

Lemma help_command_tame u : tame true menu_ok (not_request jre) (help_command u).
Proof.
  unfold help_command. apply TameFacts.tame_bind;
    [now apply TameFacts.tame_reply_text | intros; apply TameFacts.tame_ret].
Qed.

Lemma handle_message_tame u : tame true menu_ok (not_request jre) (handle_message net jre repr u).
Proof.
  unfold handle_message. apply tame_bind_lift.
  - apply internal_result, InternalFacts.ri_message_text.
  - intros body _. cbv zeta. apply TameFacts.tame_try_except.
    + apply tame_bind_lift; [trivial|]. intros results _.
      apply tame_bind_lift; [trivial|]. intros coins _.
      destruct (Py.truthy coins).
      * apply tame_bind_lift; [trivial|]. intros first10 _.
        apply TameFacts.tame_bind.
        -- apply (TameFacts.tame_weaken true menu_ok (not_request jre));
             [trivial | apply show_crypto_list_tame].
        -- intros; apply TameFacts.tame_ret.
      * apply TameFacts.tame_bind;
          [now apply TameFacts.tame_reply_text|]. intros _.
        apply TameFacts.tame_bind;
          [now apply show_main_menu_tame | intros; apply TameFacts.tame_ret].
    + intros e.
      apply TameFacts.tame_bind; [apply TameFacts.tame_log_error|]. intros _.
      apply TameFacts.tame_bind;
        [now apply TameFacts.tame_reply_text|]. intros _.
      apply TameFacts.tame_bind;
        [now apply show_main_menu_tame | intros; apply TameFacts.tame_ret].
Qed.

(** The branches of the press handler, after the acknowledgement. *)
Ltac click_branches data Hud :=
  destruct (String.eqb data "main_menu");
  [ apply TameFacts.tame_forget, TameFacts.tame_bind;
    [now apply show_main_menu_tame | intros; apply TameFacts.tame_ret] |];
  destruct (String.eqb data "top100");
  [ apply TameFacts.tame_forget;
    apply TameFacts.tame_bind;
    [now apply TameFacts.tame_edit_message_text|]; intros _;
    apply TameFacts.tame_bind; [apply get_top_cryptos_tame|]; intros ?;
    apply TameFacts.tame_bind;
    [apply show_crypto_list_tame | intros; apply TameFacts.tame_ret] |];
  destruct (String.eqb data "trending");
  [ apply TameFacts.tame_forget;
    apply TameFacts.tame_bind;
    [now apply TameFacts.tame_edit_message_text|]; intros _;
    apply TameFacts.tame_bind; [apply get_trending_cryptos_tame|]; intros ?;
    apply TameFacts.tame_bind;
    [apply show_crypto_list_tame | intros; apply TameFacts.tame_ret] |];
  destruct (String.eqb data "search");
  [ apply TameFacts.tame_forget;
    apply TameFacts.tame_bind;
    [now apply TameFacts.tame_edit_message_text
    | intros; apply TameFacts.tame_ret] |];
  let Ecrypto := fresh "Ecrypto" in
  destruct (PyStr.startswith data "crypto:") eqn:Ecrypto;
  [ match type of Hud with
    | ?b = true -> _ =>
        destruct b;
        [now specialize (Hud eq_refl); cbn in Hud; congruence|]
    end;
    apply tame_bind_lift;
    [apply internal_result, InternalFacts.ri_index|]; intros ? _;
    apply TameFacts.tame_bind; [apply TameFacts.tame_set_user_data|];
    intros _;
    apply TameFacts.tame_bind;
    [apply TameFacts.tame_forget, show_currency_options_tame
    | intros; apply TameFacts.tame_ret] |];
  destruct (PyStr.startswith data "currency:");
  [ apply TameFacts.tame_forget;
    apply tame_bind_lift;
    [apply internal_result, InternalFacts.ri_index|]; intros ? _;
    apply TameFacts.tame_bind; [apply TameFacts.tame_get_user_data|];
    intros ?;
    apply TameFacts.tame_bind;
    [apply show_crypto_details_tame | intros; apply TameFacts.tame_ret] |];
  apply TameFacts.tame_ret.

(** The press handler; it keeps the user data unless the press is a coin
    choice. *)
Lemma button_click_tame ud u :
  (ud = true -> is_coin_press u = false) ->
  tame ud menu_ok (not_request jre) (button_click net jre repr u).
Proof.
  intros Hud. unfold button_click.
  destruct u as [name|body|data]; try now apply TameFacts.tame_raise.
  apply TameFacts.tame_bind; [now apply TameFacts.tame_send|]. intros _.
  click_branches data Hud.
Qed.

(** X8.  Every press [button_click] handles is acknowledged first: the
    acknowledgement is the first thing sent, whatever the branch does
    after it and even when it raises. *)
Lemma button_click_answers_first data s :
  exists l,
    sent (fst (button_click net jre repr (CallbackQuery data) s))
    = (sent s ++ Answer :: l)%list.
Proof.
  unfold button_click.
  match goal with |- context [bind (send Answer) ?k] => set (rest := k) end.
  assert (Hany : forall ud,
             (ud = true -> is_coin_press (CallbackQuery data) = false) ->
             tame ud menu_ok (not_request jre) (rest tt)).
  { intros ud Hud. subst rest. cbv beta. click_branches data Hud. }
  assert (Hrest : tame false menu_ok (not_request jre) (rest tt))
    by (apply Hany; discriminate).
  clear Hany.
  unfold bind, send. cbn [fst snd].
  match goal with |- context [rest tt ?s1] =>
    destruct (Hrest s1) as [_ [[l [Hl _]] _]];
    destruct (rest tt s1) as [s2 [r|e]] end;
    cbn [fst snd sent] in *; exists l; now rewrite Hl, <- app_assoc.
Qed.

End Handlers.

(** ** The application, update by update *)

Section Application.
Variable net : request -> http_outcome.
Variable jre : bool.
Variable repr : json -> string.

(** The handler the conversation selects is one of the three of [main];
    it keeps the user data unless the update is a coin choice. *)
Lemma selected_handler_tame ud current u h :
  select_handler (conv_handler net jre repr) current u = Some h ->
  (ud = true -> is_coin_press u = false) ->
  tame ud menu_ok (not_request jre) (h u).
Proof.
  intros Hsel Hud.
  destruct current as [[]|], u as [name|body|data];
    cbv [select_handler conv_handler first_match entry_points states
         fallbacks find check_update fst snd option_map] in Hsel;
    try discriminate;
    try (destruct (String.eqb (PyStr.lower "start") (PyStr.lower name));
         try discriminate);
    injection Hsel as <-;
    first [ apply TameFacts.tame_forget, start_tame
          | apply TameFacts.tame_forget, handle_message_tame
          | now apply button_click_tame ].
Qed.

Lemma error_tame ud e : tame ud menu_ok (not_request jre) (error e).
Proof. apply TameFacts.tame_log_error. Qed.

(** One update, seen from the store. *)
Lemma process_update_tame ud ss u :
  (ud = true -> is_coin_press u = false) ->
  (ud = true -> user_data (mem (process_update net jre repr ss u))
                = user_data (mem ss))
  /\ (exists l, sent (mem (process_update net jre repr ss u))
                = (sent (mem ss) ++ l)%list /\ Forall menu_ok l)
  /\ (exists l, logged (mem (process_update net jre repr ss u))
                = (logged (mem ss) ++ l)%list).
Proof.
  intros Hud. unfold process_update.
  assert (Hsame : forall m : store,
             (ud = true -> user_data m = user_data m)
             /\ (exists l, sent m = (sent m ++ l)%list /\ Forall menu_ok l)
             /\ (exists l, logged m = (logged m ++ l)%list)).
  { intros m. repeat split; exists []; now rewrite app_nil_r. }
  assert (Hrun : forall (m : M (option conv_state)),
             tame ud menu_ok (not_request jre) m ->
             forall s, 
               let s' := match m s with
                         | (m', Ok _) => m'
                         | (m', Raise e) => fst (error e m')
                         end in
               (ud = true -> user_data s' = user_data s)
               /\ (exists l, sent s' = (sent s ++ l)%list /\ Forall menu_ok l)
               /\ (exists l, logged s' = (logged s ++ l)%list)).
  { intros m Hm s. destruct (Hm s) as [Hu [Hs [Hl _]]].
    destruct (m s) as [m' [r|e]]; cbn [fst snd] in *.
    - now repeat split.
    - destruct Hs as [l [Hs Hp]]. destruct Hl as [g Hl]. cbn.
      split; [exact Hu|]. split; [now exists l|].
      exists (g ++ [("Update caused error", e)])%list.
      now rewrite Hl, app_assoc. }
  destruct (select_handler _ _ u) as [h|] eqn:Hsel.
  - pose proof (Hrun (h u) (selected_handler_tame ud _ u h Hsel Hud) (mem ss))
      as H.
    cbv zeta in H. destruct (h u (mem ss)) as [m' [[next|]|e]];
      cbn [state mem] in *; exact H.
  - destruct (check_update (CommandHandler "help") u); [|apply Hsame].
    pose proof (Hrun (help_command u)
                  (TameFacts.tame_forget ud _ _ _ (help_command_tame jre u))
                  (mem ss)) as H.
    cbv zeta in H. destruct (help_command u (mem ss)) as [m' [r|e]];
      cbn [state mem] in *; exact H.
Qed.

End Application.

(** X1.  No handler lets a request exception out: whatever the service
    does, an exception raised by [start], [help_command], [button_click] or
    [handle_message] -- the ones that reach the error handler -- is not a
    [requests.RequestException]. *)
Theorem handlers_raise_no_request_exception
        (net : request -> http_outcome) (jre : bool) (repr : json -> string)
        (u : update) (s : store) (e : exn) :
  snd (start u s) = Raise e
  \/ snd (help_command u s) = Raise e
  \/ snd (button_click net jre repr u s) = Raise e
  \/ snd (handle_message net jre repr u s) = Raise e ->
  is_RequestException jre e = false.
Proof.
  intros [H | [H | [H | H]]].
  - now apply (start_tame jre u s).
  - now apply (help_command_tame jre u s).
  - refine (proj2 (proj2 (proj2 (button_click_tame net jre repr false u _ s)))
              e H).
    discriminate.
  - now apply (handle_message_tame net jre repr u s).
Qed.

Lemma handlers_raise_no_request_exception_witness :
  snd (button_click (net_serving partial_detail) true repr_none
         (CallbackQuery "currency:usd") empty_store)
  = Raise TypeError
  /\ is_RequestException true TypeError = false.
Proof.
  split; [reflexivity|].
  apply (handlers_raise_no_request_exception
           (net_serving partial_detail) true repr_none
           (CallbackQuery "currency:usd") empty_store TypeError).
  right. right. left. reflexivity.
Defined.

(** X2.  The three fetch functions talk to the service only: they send
    nothing to the chat, leave the user data alone, only append to the log,
    and raise no request exception. *)
Theorem fetches_touch_only_the_log
        (net : request -> http_outcome) (jre : bool) (limit : Z)
        (crypto_id currency : string) :
  Forall (fun m : M json =>
            forall s,
              user_data (fst (m s)) = user_data s
              /\ sent (fst (m s)) = sent s
              /\ (exists l, logged (fst (m s)) = (logged s ++ l)%list)
              /\ (forall e, snd (m s) = Raise e ->
                            is_RequestException jre e = false))
         [get_top_cryptos net jre limit;
          get_trending_cryptos net jre;
          get_crypto_details net jre crypto_id currency].
Proof.
  assert (H : forall m : M json,
             tame true (fun _ => False) (not_request jre) m ->
             forall s,
               user_data (fst (m s)) = user_data s
               /\ sent (fst (m s)) = sent s
               /\ (exists l, logged (fst (m s)) = (logged s ++ l)%list)
               /\ (forall e, snd (m s) = Raise e ->
                             is_RequestException jre e = false)).
  { intros m Hm s. destruct (Hm s) as [Hu [[l [Hs Hl]] [Hg He]]].
    split; [now apply Hu|]. split; [|now split].
    destruct l as [|a l]; [now rewrite Hs, app_nil_r|].
    now inversion Hl. }
  constructor; [apply H, get_top_cryptos_tame|].
  constructor; [apply H, get_trending_cryptos_tame|].
  constructor; [apply H, get_crypto_details_tame|].
  constructor.
Qed.

(** X3.  Whatever the updates and whatever the service answers, the
    application only appends to the chat and to the log, and every keyboard
    it sends is the main menu or ends with the back button: the user is
    never left without a way back. *)
Theorem updates_only_append_menus
        (net : request -> http_outcome) (jre : bool) (repr : json -> string)
        (us : list update) (ss : session) :
  exists l g,
    sent (mem (process_updates net jre repr ss us)) = (sent (mem ss) ++ l)%list
    /\ Forall menu_ok l
    /\ logged (mem (process_updates net jre repr ss us))
       = (logged (mem ss) ++ g)%list.
Proof.
  revert ss. induction us as [|u us IH]; intros ss.
  - exists [], []. cbn. now rewrite !app_nil_r.
  - cbn [process_updates fold_left].
    destruct (process_update_tame net jre repr false ss u)
      as [_ [[l1 [Hs1 Hp1]] [g1 Hl1]]]; [discriminate|].
    destruct (IH (process_update net jre repr ss u))
      as [l2 [g2 [Hs2 [Hp2 Hl2]]]].
    exists (l1 ++ l2)%list, (g1 ++ g2)%list.
    unfold process_updates in *. rewrite Hs2, Hl2, Hs1, Hl1, !app_assoc.
    repeat split. now apply Forall_app.
Qed.

(** X4.  Only a coin choice writes to the user data: an update that is
    not a press on [crypto:...] handled in a menu state leaves them as they
    were, even when its handler fails; such a press stores the first field
    of the payload under [crypto]. *)
Theorem user_data_changes_only_on_coin_choice
        (net : request -> http_outcome) (jre : bool) (repr : json -> string)
        (ss : session) (u : update) :
  (is_menu_state (state ss) && is_coin_press u = false ->
   user_data (mem (process_update net jre repr ss u)) = user_data (mem ss))
  /\ (forall payload,
         is_menu_state (state ss) = true ->
         u = CallbackQuery ("crypto:" ++ payload) ->
         user_data (mem (process_update net jre repr ss u))
         = dict_set (user_data (mem ss)) "crypto"
                    (hd EmptyString (PyStr.split ":" payload))).
Proof.
  split.
  - intros H. destruct (is_coin_press u) eqn:Ecoin.
    + rewrite andb_true_r in H.
      destruct u as [name|body|data]; try discriminate.
      unfold process_update. rewrite select_callback.
      destruct ss as [[[]|] m]; try discriminate; reflexivity.
    + now apply (process_update_tame net jre repr true ss u).
  - intros payload Hst ->. unfold process_update. rewrite select_callback.
    destruct ss as [[[]|] m]; try discriminate; cbn [state mem];
      now rewrite button_click_crypto.
Qed.

Lemma user_data_changes_only_on_coin_choice_witness :
  user_data (mem (process_update (net_serving partial_detail) true repr_none
                    (session_with_coin CHOOSING_CURRENCY "bitcoin")
                    (CallbackQuery "currency:usd")))
  = [("crypto", "bitcoin")]
  /\ user_data (mem (process_update net_down true repr_none
                       (session_with_coin CHOOSING_CRYPTO "bitcoin")
                       (CallbackQuery "crypto:ethereum")))
     = [("crypto", "ethereum")].
Proof.
  split.
  - apply (proj1 (user_data_changes_only_on_coin_choice
                    (net_serving partial_detail) true repr_none
                    (session_with_coin CHOOSING_CURRENCY "bitcoin")
                    (CallbackQuery "currency:usd"))).
    reflexivity.
  - apply (proj2 (user_data_changes_only_on_coin_choice
                    net_down true repr_none
                    (session_with_coin CHOOSING_CRYPTO "bitcoin")
                    (CallbackQuery "crypto:ethereum")) "ethereum");
      reflexivity.
Defined.

(** X5.  A conversation starts with [/start], in any spelling of
    capitals, and with nothing else, and once started it never ends: no
    handler returns an end state, and a failing handler keeps the state. *)
Theorem conversation_starts_once_and_never_ends
        (net : request -> http_outcome) (jre : bool) (repr : json -> string)
        (ss : session) :
  (state ss = None ->
   forall u,
     state (process_update net jre repr ss u)
     = match u with
       | Command name =>
           if String.eqb "start" (PyStr.lower name)
           then Some MAIN_MENU else None
       | _ => None
       end)
  /\ (state ss <> None ->
      forall us, state (process_updates net jre repr ss us) <> None).
Proof.
  split.
  - intros Hst u. destruct ss as [st m]. cbn [state] in Hst. subst st.
    destruct u as [name|body|data].
    + unfold process_update.
      cbv [select_handler conv_handler first_match entry_points find
           check_update fst snd option_map state mem].
      change (PyStr.lower "start") with "start".
      change (PyStr.lower "help") with "help".
      destruct (String.eqb "start" (PyStr.lower name)); [reflexivity|].
      destruct (String.eqb "help" (PyStr.lower name)); [|reflexivity].
      now destruct (help_command (Command name) m) as [m' [r|e]].
    + reflexivity.
    + reflexivity.
  - intros Hst us. revert ss Hst.
    induction us as [|u us IH]; intros ss Hst; [exact Hst|].
    cbn [process_updates fold_left]. apply IH.
    unfold process_update.
    destruct (select_handler _ _ u) as [h|].
    + destruct (h u (mem ss)) as [m' [[next|]|e]]; cbn [state];
        [discriminate | exact Hst | exact Hst].
    + destruct (check_update _ u); [|exact Hst].
      now destruct (help_command u (mem ss)) as [m' [r|e]].
Qed.

Lemma conversation_starts_once_and_never_ends_witness :
  state (process_update net_down true repr_none new_session
           (CallbackQuery "top100")) = None
  /\ state (process_update net_down true repr_none new_session
              (Command "START")) = Some MAIN_MENU
  /\ state (process_updates net_down true repr_none (session_in MAIN_MENU)
              [CallbackQuery "top100"; CallbackQuery "nonsense";
               TextMessage "hello"]) <> None.
Proof.
  split; [|split].
  - apply (proj1 (conversation_starts_once_and_never_ends
                    net_down true repr_none new_session) eq_refl
             (CallbackQuery "top100")).
  - apply (proj1 (conversation_starts_once_and_never_ends
                    net_down true repr_none new_session) eq_refl
             (Command "START")).
  - apply (proj2 (conversation_starts_once_and_never_ends
                    net_down true repr_none (session_in MAIN_MENU))).
    discriminate.
Defined.

(** X6.  An update no handler takes changes nothing at all: a command
    other than [/start] and [/help], however these two are spelled in
    capitals; a text while the bot is not waiting
    for a search; a button press while it is waiting for one, or before
    [/start] -- the press is not even acknowledged. *)
Theorem unhandled_updates_change_nothing
        (net : request -> http_outcome) (jre : bool) (repr : json -> string)
        (ss : session) (u : update) :
  has_no_handler (state ss) u = true ->
  process_update net jre repr ss u = ss.
Proof.
  intros H. unfold process_update.
  destruct u as [name|body|data]; cbn [has_no_handler] in H.
  - apply negb_true_iff, orb_false_iff in H as [Hs Hh].
    rewrite String.eqb_sym in Hs. rewrite String.eqb_sym in Hh.
    assert (Hsel : select_handler (conv_handler net jre repr) (state ss)
                                  (Command name) = None).
    { destruct (state ss) as [[]|];
        cbv [select_handler conv_handler first_match entry_points states
             fallbacks find check_update fst snd option_map];
        change (PyStr.lower "start") with "start";
        now rewrite Hs. }
    rewrite Hsel. cbn [check_update].
    change (PyStr.lower "help") with "help". now rewrite Hh.
  - destruct ss as [[[]|] m]; try discriminate; reflexivity.
  - rewrite select_callback.
    destruct ss as [[[]|] m]; try discriminate; reflexivity.
Qed.

Lemma unhandled_updates_change_nothing_witness :
  process_update net_down true repr_none (session_in TYPING_SEARCH)
                 (CallbackQuery "main_menu")
  = session_in TYPING_SEARCH
  /\ process_update net_down true repr_none (session_in MAIN_MENU)
                    (Command "Settings")
     = session_in MAIN_MENU.
Proof.
  split.
  - apply (unhandled_updates_change_nothing net_down true repr_none
             (session_in TYPING_SEARCH) (CallbackQuery "main_menu")).
    reflexivity.
  - apply (unhandled_updates_change_nothing net_down true repr_none
             (session_in MAIN_MENU) (Command "Settings")).
    reflexivity.
Defined.

(** X7.  [/help] is answered in every state, and before [/start], with the
    help text in a new message; the conversation state and the user data
    stay as they are. *)
Theorem help_keeps_the_conversation
        (net : request -> http_outcome) (jre : bool) (repr : json -> string)
        (ss : session) :
  process_update net jre repr ss (Command "help")
  = {| state := state ss;
       mem := add_sent (mem ss) [ReplyText help_text None] |}
  /\ PyStr.contains "/start" help_text = true
  /\ PyStr.contains "/help" help_text = true.
Proof.
  split; [|split; reflexivity].
  destruct ss as [[[]|] m]; reflexivity.
Qed.

(** ** The coin list, entry by entry *)

Section Entries.
Variable repr : json -> string.

Lemma crypto_button_renderable c :
  renderable_entry c = true -> crypto_button repr c = Ok (button_of repr c).
Proof.
  intros H. unfold button_of.
  destruct c as [| | | | | |d]; try discriminate.
  unfold renderable_entry in H. unfold crypto_button, Py.get, dict_get.
  cbn [rbind].
  destruct (dict_find d "symbol") as [[| | | |sy| |]|]; try discriminate;
    reflexivity.
Qed.

Lemma crypto_button_not_renderable c :
  renderable_entry c = false -> crypto_button repr c = Raise AttributeError.
Proof.
  intros H. destruct c as [| | | | | |d]; try reflexivity.
  unfold renderable_entry in H. unfold crypto_button, Py.get, dict_get.
  cbn [rbind].
  destruct (dict_find d "symbol") as [[| | | |sy| |]|]; try discriminate;
    reflexivity.
Qed.

Lemma rows_of_entries l :
  Py.for_each (Py.for_each (crypto_button repr)) (rows_of_two l)
  = if forallb renderable_entry l
    then Ok (rows_of_two (map (button_of repr) l))
    else Raise AttributeError.
Proof.
  induction l as [| a | a b t IH] using ListFacts.pair_induction.
  - reflexivity.
  - cbn [rows_of_two Py.for_each forallb map]. rewrite andb_true_r.
    destruct (renderable_entry a) eqn:Ea.
    + now rewrite (crypto_button_renderable a Ea).
    + now rewrite (crypto_button_not_renderable a Ea).
  - cbn [rows_of_two Py.for_each forallb map].
    destruct (renderable_entry a) eqn:Ea.
    + rewrite (crypto_button_renderable a Ea). cbn [rbind andb].
      destruct (renderable_entry b) eqn:Eb.
      * rewrite (crypto_button_renderable b Eb). cbn [rbind andb].
        rewrite IH. now destruct (forallb renderable_entry t).
      * now rewrite (crypto_button_not_renderable b Eb).
    + now rewrite (crypto_button_not_renderable a Ea).
Qed.

Lemma keyboard_of_entries l :
  crypto_list_keyboard repr (JList l)
  = if forallb renderable_entry l
    then Ok (rows_of_two (map (button_of repr) l) ++ [back_row])%list
    else Raise AttributeError.
Proof.
  unfold crypto_list_keyboard. cbn [Py.len rbind Py.slice].
  rewrite (ListFacts.for_each_map
             (fun i => firstn (i + 2 - i) (skipn i l))
             (fun part => rbind (Py.iter (JList part))
                            (fun items => Py.for_each (crypto_button repr)
                                                      items))).
  rewrite ListFacts.slices_are_rows.
  rewrite (ListFacts.for_each_ext _ (Py.for_each (crypto_button repr)))
    by reflexivity.
  rewrite rows_of_entries. now destruct (forallb renderable_entry l).
Qed.

End Entries.

(** X9.  [show_crypto_list] on a list shows it exactly when every entry is
    an object whose [symbol] is absent or a string.  One entry that is not
    -- a [null] symbol, an entry that is no object -- makes it raise
    [AttributeError] before anything is sent, however many good entries
    there are. *)
Theorem coin_list_renders_iff_entries_do
        (repr : json -> string) (cryptos : list json) (u : update)
        (title : string) (s : store) :
  crypto_list_keyboard repr (JList cryptos)
  = (if forallb renderable_entry cryptos
     then Ok (rows_of_two (map (button_of repr) cryptos) ++ [back_row])%list
     else Raise AttributeError)
  /\ show_crypto_list repr u (JList cryptos) title s
     = (if forallb renderable_entry cryptos
        then (add_sent s
                [render u title
                   (Some (rows_of_two (map (button_of repr) cryptos)
                          ++ [back_row])%list)],
              Ok tt)
        else (s, Raise AttributeError)).
Proof.
  split; [apply keyboard_of_entries|].
  unfold show_crypto_list, bind, lift. rewrite keyboard_of_entries.
  destruct (forallb renderable_entry cryptos); [|reflexivity].
  destruct u; reflexivity.
Qed.

(** X10.  The token of a coin button leads back to its coin: for a coin
    summary whose id holds no colon, a press on the button
    [show_crypto_list] makes for it stores exactly that id, which is then
    the one the detail lookup is made for. *)
Theorem coin_button_round_trip
        (net : request -> http_outcome) (jre : bool) (repr : json -> string)
        (c : json) (s : store) :
  is_coin_summary c = true ->
  PyStr.free_of ":" (coin_id c) = true ->
  exists b s',
    crypto_button repr c = Ok b
    /\ button_click net jre repr (CallbackQuery (callback_data b)) s
       = (s', Ok (Some CHOOSING_CURRENCY))
    /\ user_data s' = dict_set (user_data s) "crypto" (coin_id c)
    /\ dict_get (user_data s') "crypto" "bitcoin" = coin_id c.
Proof.
  intros Hc Hfree.
  destruct (button_of_summary repr c Hc) as [Hb Htok].
  eexists. eexists. split; [exact Hb|].
  rewrite Htok, button_click_crypto.
  rewrite (PyStrFacts.first_field_free ":" _ Hfree).
  split; [reflexivity|]. cbn [user_data]. split; [reflexivity|].
  apply dict_get_set_same.
Qed.

Lemma coin_button_round_trip_witness :
  exists b s',
    crypto_button repr_none (JObj [("id", JStr "usd-coin")]) = Ok b
    /\ button_click net_down true repr_none (CallbackQuery (callback_data b))
                    empty_store
       = (s', Ok (Some CHOOSING_CURRENCY))
    /\ user_data s' = [("crypto", "usd-coin")].
Proof.
  destruct (coin_button_round_trip net_down true repr_none
              (JObj [("id", JStr "usd-coin")]) empty_store
              eq_refl eq_refl) as [b [s' [Hb [Hc [Hu _]]]]].
  exists b, s'. repeat split; assumption.
Defined.

(** X11.  An entry without [id], [name] and [symbol] keys still gets a
    button: it is labelled [Unknown (UNKNOWN)] and carries
    [crypto:unknown], so every such entry leads to the lookup of the coin
    [unknown]. *)
Theorem entry_without_keys_is_unknown
        (net : request -> http_outcome) (jre : bool) (repr : json -> string)
        (d : dict json) (s : store) :
  dict_find d "id" = None ->
  dict_find d "name" = None ->
  dict_find d "symbol" = None ->
  crypto_button repr (JObj d)
  = Ok {| text := "Unknown (UNKNOWN)"; callback_data := "crypto:unknown" |}
  /\ user_data (fst (button_click net jre repr
                       (CallbackQuery "crypto:unknown") s))
     = dict_set (user_data s) "crypto" "unknown".
Proof.
  intros Hi Hn Hs. split.
  - unfold crypto_button, Py.get, dict_get. now rewrite Hi, Hn, Hs.
  - change "crypto:unknown" with ("crypto:" ++ "unknown").
    now rewrite button_click_crypto.
Qed.

Lemma entry_without_keys_is_unknown_witness :
  crypto_button repr_none
    (JObj [("item", JObj [("id", JStr "bitcoin"); ("symbol", JStr "btc")])])
  = Ok {| text := "Unknown (UNKNOWN)"; callback_data := "crypto:unknown" |}.
Proof.
  apply (entry_without_keys_is_unknown net_down true repr_none
           [("item", JObj [("id", JStr "bitcoin"); ("symbol", JStr "btc")])]
           empty_store);
    reflexivity.
Defined.

(** X12.  The currency menu and the press handler agree: the keyboard has
    one row per supported currency, labelled with the upper-cased code,
    then the back row; and a press on the button of a supported currency
    looks the stored coin up in exactly that currency. *)
Theorem currency_button_round_trip
        (net : request -> http_outcome) (jre : bool) (repr : json -> string)
        (s : store) :
  List.length currency_keyboard = S (List.length SUPPORTED_CURRENCIES)
  /\ last currency_keyboard [] = back_row
  /\ forall currency,
       In currency SUPPORTED_CURRENCIES ->
       In [{| text := PyStr.upper currency;
              callback_data := "currency:" ++ currency |}]
          currency_keyboard
       /\ button_click net jre repr
            (CallbackQuery ("currency:" ++ currency)) s
          = (send Answer ;;;
             show_crypto_details net jre
               (CallbackQuery ("currency:" ++ currency))
               (dict_get (user_data s) "crypto" "bitcoin") currency ;;;
             ret (Some MAIN_MENU)) s.
Proof.
  split; [reflexivity|]. split; [reflexivity|].
  intros currency Hin. split.
  - unfold currency_keyboard. apply in_or_app. left.
    now apply (in_map (fun c => [{| text := PyStr.upper c;
                                    callback_data := "currency:" ++ c |}])).
  - rewrite button_click_currency.
    assert (Hfree : PyStr.free_of ":" currency = true).
    { cbn [SUPPORTED_CURRENCIES In] in Hin.
      repeat (destruct Hin as [<-|Hin]; [reflexivity|]). contradiction. }
    now rewrite (PyStrFacts.first_field_free ":" _ Hfree).
Qed.

Lemma currency_button_round_trip_witness :
  In [{| text := "EUR"; callback_data := "currency:eur" |}] currency_keyboard
  /\ button_click net_down true repr_none (CallbackQuery "currency:eur")
                  empty_store
     = (send Answer ;;;
        show_crypto_details net_down true (CallbackQuery "currency:eur")
                            "bitcoin" "eur" ;;;
        ret (Some MAIN_MENU)) empty_store.
Proof.
  destruct (currency_button_round_trip net_down true repr_none empty_store)
    as [_ [_ H]].
  apply (H "eur"). cbn. tauto.
Defined.

(** ** The search *)

Section Search.
Variable net : request -> http_outcome.
Variable jre : bool.
Variable repr : json -> string.

Lemma forallb_firstn {A} (p : A -> bool) n l :
  forallb p l = true -> forallb p (firstn n l) = true.
Proof.
  revert n. induction l as [|a l IH]; intros [|n] H; try reflexivity.
  cbn [forallb firstn] in *. apply andb_prop in H as [Ha Hl].
  now rewrite Ha, IH.
Qed.

(** What [handle_message] does with a decoded answer. *)
Lemma handle_message_answer body s c d :
  net (operation_request (searchCoins body)) = Response c (Some (JObj d)) ->
  handle_message net jre repr (TextMessage body) s
  = try_except jre
      (let coins := dict_get d "coins" (JList []) in
       if Py.truthy coins then
         first10 <- lift (Py.slice coins 0 10) ;;
         show_crypto_list repr (TextMessage body) first10 "Search Results:" ;;;
         ret (Some CHOOSING_CRYPTO)
       else
         reply_text (TextMessage body)
           "Sorry, I couldn't find any cryptocurrency matching your search."
           None ;;;
         show_main_menu (TextMessage body) ;;;
         ret (Some MAIN_MENU))
      (fun e =>
         log_error "Error searching for cryptocurrency" e ;;;
         reply_text (TextMessage body)
           "An error occurred while searching for the cryptocurrency." None ;;;
         show_main_menu (TextMessage body) ;;;
         ret (Some MAIN_MENU)) s.
Proof.
  intros H. unfold operation_request in H.
  unfold handle_message, try_except, requests_get.
  cbn [message_text]. unfold bind at 1. unfold lift at 1. cbv zeta.
  unfold bind at 1. unfold lift at 1. rewrite H.
  cbn [rbind response_json body_json Py.get].
  unfold bind at 1. unfold lift at 1. reflexivity.
Qed.

End Search.

(** X13.  The search shows at most ten coins: whatever the number of
    results, the keyboard holds the buttons of the first ten, in at most
    five rows, then the back row, and the conversation goes to
    [CHOOSING_CRYPTO].  The status code of the answer plays no part. *)
Theorem search_shows_first_ten
        (net : request -> http_outcome) (jre : bool) (repr : json -> string)
        (body : string) (s : store) (c : Z) (d : dict json)
        (coins : list json) :
  net (operation_request (searchCoins body)) = Response c (Some (JObj d)) ->
  dict_find d "coins" = Some (JList coins) ->
  coins <> [] ->
  forallb renderable_entry coins = true ->
  let rows := rows_of_two (map (button_of repr) (firstn 10 coins)) in
  handle_message net jre repr (TextMessage body) s
  = (add_sent s [ReplyText "Search Results:" (Some (rows ++ [back_row])%list)],
     Ok (Some CHOOSING_CRYPTO))
  /\ List.length rows <= 5
  /\ List.length (List.concat rows) = Nat.min 10 (List.length coins).
Proof.
  intros Hnet Hcoins Hne Hok. cbv zeta. split; [|split].
  - rewrite (handle_message_answer net jre repr body s c d Hnet).
    unfold dict_get. rewrite Hcoins. cbv zeta.
    destruct coins as [|c0 cs]; [contradiction|]. cbn [Py.truthy].
    unfold try_except, show_crypto_list. cbn [Py.slice].
    unfold bind at 1. unfold lift at 1.
    unfold bind at 1. unfold bind at 1. unfold lift at 1.
    rewrite keyboard_of_entries.
    rewrite (forallb_firstn renderable_entry _ _ Hok).
    reflexivity.
  - rewrite ListFacts.rows_length, length_map, length_firstn.
    assert (H : Nat.min 10 (List.length coins) <= 10) by apply Nat.le_min_l.
    transitivity ((10 + 1) / 2); [|reflexivity].
    apply Nat.Div0.div_le_mono. lia.
  - now rewrite ListFacts.rows_concat, length_map, length_firstn.
Qed.

Lemma search_shows_first_ten_witness :
  exists markup,
    sent (fst (handle_message
                 (net_constant 200 (Some (JObj [("coins", JList twelve_coins)])))
                 true repr_none (TextMessage "coin") empty_store))
    = [ReplyText "Search Results:" (Some markup)]
    /\ List.length markup = 6.
Proof.
  destruct (search_shows_first_ten
              (net_constant 200 (Some (JObj [("coins", JList twelve_coins)])))
              true repr_none "coin" empty_store 200%Z
              [("coins", JList twelve_coins)] twelve_coins
              eq_refl eq_refl ltac:(discriminate) eq_refl) as [H _].
  eexists. rewrite H. split; reflexivity.
Defined.

(** X15.  A search answer without coins -- no [coins] key, an empty list,
    [null] -- is answered with the no-match notice followed by the main
    menu, nothing is logged, and the conversation returns to
    [MAIN_MENU]. *)
Theorem search_without_result
        (net : request -> http_outcome) (jre : bool) (repr : json -> string)
        (body : string) (s : store) (c : Z) (d : dict json) :
  net (operation_request (searchCoins body)) = Response c (Some (JObj d)) ->
  Py.truthy (dict_get d "coins" (JList [])) = false ->
  handle_message net jre repr (TextMessage body) s
  = (add_sent s
       [ReplyText
          "Sorry, I couldn't find any cryptocurrency matching your search."
          None;
        ReplyText welcome (Some main_menu_keyboard)],
     Ok (Some MAIN_MENU)).
Proof.
  intros Hnet Hempty.
  rewrite (handle_message_answer net jre repr body s c d Hnet).
  cbv zeta. rewrite Hempty.
  unfold try_except. run_monad. unfold show_main_menu. run_monad.
  unfold add_sent. now rewrite <- app_assoc.
Qed.

Lemma search_without_result_witness :
  handle_message (net_constant 429 (Some (JObj [("status", JNull)]))) true
                 repr_none (TextMessage "doge") empty_store
  = (add_sent empty_store
       [ReplyText
          "Sorry, I couldn't find any cryptocurrency matching your search."
          None;
        ReplyText welcome (Some main_menu_keyboard)],
     Ok (Some MAIN_MENU)).
Proof.
  apply (search_without_result
           (net_constant 429 (Some (JObj [("status", JNull)]))) true
           repr_none "doge" empty_store 429%Z [("status", JNull)]);
    reflexivity.
Defined.

(** ** Failed list fetches, odd details, and the requests a press makes *)

(** X16.  When the list fetch behind [top100] or [trending] fails in a
    way the fetch catches, the press still succeeds: after the
    acknowledgement and the waiting text, the title is shown over the back
    button alone, and the conversation goes to [CHOOSING_CRYPTO]. *)
Theorem failed_list_fetch_shows_back_only
        (net : request -> http_outcome) (jre : bool) (repr : json -> string)
        (s : store) :
  (request_fails net jre (fetchTopCoins 100) ->
   exists e,
     button_click net jre repr (CallbackQuery "top100") s
     = (add_sent (add_logged s [("Error fetching top cryptos", e)])
          [Answer;
           EditMessageText "Fetching top cryptocurrencies, please wait..."
                           None;
           EditMessageText "Top 100 Cryptocurrencies:" (Some [back_row])],
        Ok (Some CHOOSING_CRYPTO)))
  /\ (request_fails net jre fetchTrendingCoins ->
      exists e,
        button_click net jre repr (CallbackQuery "trending") s
        = (add_sent (add_logged s [("Error fetching trending cryptos", e)])
             [Answer;
              EditMessageText
                "Fetching trending cryptocurrencies, please wait..." None;
              EditMessageText "Trending Cryptocurrencies:" (Some [back_row])],
           Ok (Some CHOOSING_CRYPTO))).
Proof.
  assert (Hsent : forall (l : list action) a b c,
             (((l ++ [a]) ++ [b]) ++ [c] = l ++ [a; b; c])%list)
    by (intros; now rewrite <- !app_assoc).
  assert (Hnone : crypto_list_keyboard repr (JList []) = Ok [back_row])
    by reflexivity.
  split.
  - intros [H | [[_ [c [b [H Hc]]]] | [Hj [c H]]]];
      unfold operation_request, error_status in *;
      [exists ConnectionError | exists HTTPError
      | exists (if ((400 <=? c)%Z && (c <? 600)%Z)
                then HTTPError else JSONDecodeError); subst jre];
      unfold button_click, get_top_cryptos, show_crypto_list, try_except,
        requests_get, raise_for_status;
      cbn [String.eqb Ascii.eqb Bool.eqb]; run_monad; rewrite H;
      cbn [rbind status_code body_json response_json is_RequestException];
      rewrite ?Hc;
      try (destruct ((400 <=? c)%Z && (c <? 600)%Z));
      cbn [rbind response_json body_json is_RequestException]; run_monad;
      rewrite Hnone; run_monad;
      unfold add_sent, add_logged; cbn [user_data sent logged];
      rewrite ?Hsent; reflexivity.
  - intros [H | [[_ [c [b [H Hc]]]] | [Hj [c H]]]];
      unfold operation_request, error_status in *;
      [exists ConnectionError | exists HTTPError
      | exists (if ((400 <=? c)%Z && (c <? 600)%Z)
                then HTTPError else JSONDecodeError); subst jre];
      unfold button_click, get_trending_cryptos, show_crypto_list, try_except,
        requests_get, raise_for_status;
      cbn [String.eqb Ascii.eqb Bool.eqb]; run_monad; rewrite H;
      cbn [rbind status_code body_json response_json is_RequestException];
      rewrite ?Hc;
      try (destruct ((400 <=? c)%Z && (c <? 600)%Z));
      cbn [rbind response_json body_json is_RequestException]; run_monad;
      rewrite Hnone; run_monad;
      unfold add_sent, add_logged; cbn [user_data sent logged];
      rewrite ?Hsent; reflexivity.
Qed.

Lemma failed_list_fetch_shows_back_only_witness :
  exists e,
    button_click net_down true repr_none (CallbackQuery "trending") empty_store
    = (add_sent (add_logged empty_store
                   [("Error fetching trending cryptos", e)])
         [Answer;
          EditMessageText
            "Fetching trending cryptocurrencies, please wait..." None;
          EditMessageText "Trending Cryptocurrencies:" (Some [back_row])],
       Ok (Some CHOOSING_CRYPTO)).
Proof.
  apply (proj2 (failed_list_fetch_shows_back_only
                  net_down true repr_none empty_store)).
  left. reflexivity.
Defined.

(** X17.  The ["N/A"] default covers a missing key only.  Whenever the 24h
    change of a non-empty detail is not a number -- the default of a
    missing key, but also a [null] or a string found under the key -- the
    comparison with [0] raises [TypeError], whatever the other fields
    hold, and nothing is sent. *)
Theorem non_numeric_change_raises
        (net : request -> http_outcome) (jre : bool)
        (crypto_id currency data : string) (d : dict json) (s : store) :
  Py.truthy (JObj d) = true ->
  is_numeric (dict_get d (currency ++ "_24h_change") (JStr "N/A")) = false ->
  details_message crypto_id currency (JObj d) = Raise TypeError
  /\ (snd (get_crypto_details net jre crypto_id currency s) = Ok (JObj d) ->
      snd (show_crypto_details net jre (CallbackQuery data)
             crypto_id currency s) = Raise TypeError
      /\ sent (fst (show_crypto_details net jre (CallbackQuery data)
                      crypto_id currency s)) = sent s).
Proof.
  intros Ht Hn.
  assert (Hm : details_message crypto_id currency (JObj d) = Raise TypeError).
  { unfold details_message. rewrite Ht. cbn [Py.get rbind].
    destruct (dict_get d (currency ++ "_24h_change") (JStr "N/A"));
      try discriminate; reflexivity. }
  split; [exact Hm|]. intros Hd.
  pose proof (show_crypto_details_run net jre data crypto_id currency s
                (JObj d) Hd) as H.
  cbv zeta in H. rewrite Hm in H. tauto.
Qed.

Lemma non_numeric_change_raises_witness :
  details_message "bitcoin" "usd" null_change_detail = Raise TypeError.
Proof.
  apply (non_numeric_change_raises net_down true "bitcoin" "usd"
           "currency:usd"
           [("usd", JFloat float_65000_5);
            ("usd_market_cap", JInt 1280000000000);
            ("usd_24h_change", JNull)] empty_store);
    reflexivity.
Defined.



(** ** More on the detail text *)

Module SignFacts.
Import PyStr.

Lemma digits_unsigned n : forallb unsigned (Fmt.digits n) = true.
Proof.
  unfold Fmt.digits. rewrite CaseFacts.all_chars_to_list.
  generalize (N.to_uint n). intros u.
  assert (H : all_chars unsigned (NilEmpty.string_of_uint u) = true)
    by (induction u; cbn; auto).
  destruct u; exact H || reflexivity.
Qed.

Lemma sep3_unsigned k l :
  forallb unsigned l = true -> forallb unsigned (Fmt.sep3 k l) = true.
Proof.
  revert k. induction l as [|c l IH]; intros k H; [reflexivity|].
  cbn [forallb] in H. apply andb_prop in H as [Hc Hl].
  destruct k; cbn [Fmt.sep3 forallb]; rewrite Hc, IH by assumption;
    reflexivity.
Qed.

Lemma group3_unsigned l :
  forallb unsigned l = true -> forallb unsigned (Fmt.group3 l) = true.
Proof.
  intros H. unfold Fmt.group3. rewrite CaseFacts.forallb_rev.
  apply sep3_unsigned. now rewrite CaseFacts.forallb_rev.
Qed.

Lemma pad_unsigned d l :
  forallb unsigned l = true -> forallb unsigned (Fmt.pad d l) = true.
Proof.
  intros H. unfold Fmt.pad. rewrite forallb_app, H, andb_true_r.
  induction (d - List.length l) as [|k IH]; [reflexivity|].
  cbn [repeat forallb]. now rewrite IH.
Qed.

Lemma fixed_unsigned q d g : free_of "-" (Fmt.fixed false q d g) = true.
Proof.
  unfold Fmt.fixed, free_of. fold unsigned.
  rewrite CaseFacts.all_chars_of_list. cbn [app]. rewrite forallb_app.
  apply andb_true_intro; split.
  - destruct g; [apply group3_unsigned|]; apply digits_unsigned.
  - destruct d; [reflexivity|].
    cbn [forallb]. apply pad_unsigned, digits_unsigned.
Qed.

(** The magnitude of a float is written without sign. *)
Lemma float_abs_unsigned f d g :
  free_of "-" (Fmt.float (SFabs f) d g) = true.
Proof.
  destruct f as [s|s| |s m e]; cbn [SFabs Fmt.float];
    try apply fixed_unsigned; reflexivity.
Qed.

(** So is the float of a natural number. *)
Lemma float_of_nonnegative_unsigned z f d g :
  (0 <= z)%Z -> Fmt.float_of_int z = Ok f ->
  free_of "-" (Fmt.float f d g) = true.
Proof.
  intros Hz. destruct z as [|p|p]; [| |exfalso; now apply Hz].
  - intros [= <-]. apply fixed_unsigned.
  - unfold Fmt.float_of_int, binary_normalize, binary_round,
      binary_round_aux.
    destruct (shl_align _ _ _) as [mz ez].
    destruct (shr_fexp _ _ _ _ _) as [mrs' e'].
    destruct (shr_fexp _ _ _ _ _) as [mrs'' e''].
    destruct (shr_m mrs'') as [|m|m].
    + intros [= <-]. apply fixed_unsigned.
    + destruct (e'' <=? 1024 - 53)%Z; [|discriminate].
      intros [= <-]. apply fixed_unsigned.
    + intros [= <-]. reflexivity.
Qed.

End SignFacts.

(** X19.  The 24h change is shown as a magnitude: whatever its sign, the
    figure [abs(change_24h)] formatted with [.2f] holds no minus sign; the
    direction is told by the glyph alone.  And that figure is the one on
    the change line of the text [show_crypto_details] builds for a detail
    with this change. *)
Theorem change_figure_has_no_sign (change_24h magnitude : json) (figure : string) :
  Py.abs change_24h = Ok magnitude ->
  Fmt.number magnitude 2 false = Ok figure ->
  PyStr.free_of "-" figure = true
  /\ forall crypto_id currency details price market_cap message,
       detail_fields currency details = Some (price, change_24h, market_cap) ->
       details_message crypto_id currency details = Ok message ->
       exists price_s glyph market_cap_s,
         message = detail_text crypto_id currency price_s glyph figure
                               market_cap_s.
Proof.
  intros Habs Hfig. split.
  2:{ intros crypto_id currency details price market_cap message Hf.
      destruct details as [| | | | | |d]; try discriminate.
      cbn [detail_fields] in Hf.
      destruct (dict_find d currency) as [p|] eqn:Ep; [|discriminate].
      destruct (dict_find d (currency ++ "_24h_change")) as [c|] eqn:Ec;
        [|discriminate].
      destruct (dict_find d (currency ++ "_market_cap")) as [m|] eqn:Em;
        [|discriminate].
      injection Hf as -> -> ->.
      unfold details_message.
      destruct d as [|kv d']; [discriminate|].
      cbn [Py.truthy Py.get rbind]. unfold dict_get. rewrite Ep, Ec, Em.
      destruct (change_symbol_of change_24h) as [g|e]; [|discriminate].
      cbn [rbind].
      destruct (Fmt.number price 2 true) as [ps|e]; [|discriminate].
      cbn [rbind]. rewrite Habs. cbn [rbind]. rewrite Hfig. cbn [rbind].
      destruct (Fmt.number market_cap 0 true) as [ms|e]; [|discriminate].
      cbn [rbind]. intros [= <-]. now exists ps, g, ms. }
  revert Habs Hfig.
  destruct change_24h as [| b | z | f | | |]; try discriminate;
    intros [= <-]; cbn [Fmt.number].
  - destruct (Fmt.float_of_int (if b then _ else _)) as [x|] eqn:E;
      [|discriminate].
    intros [= <-].
    assert (Hb : (0 <= (if b then 1 else 0))%Z) by (destruct b; lia).
    apply (SignFacts.float_of_nonnegative_unsigned _ _ _ _ Hb E).
  - destruct (Fmt.float_of_int (Z.abs z)) as [x|] eqn:E; [|discriminate].
    intros [= <-].
    apply (SignFacts.float_of_nonnegative_unsigned _ _ _ _ (Z.abs_nonneg z) E).
  - intros [= <-]. apply SignFacts.float_abs_unsigned.
Qed.

Lemma change_figure_has_no_sign_witness :
  Fmt.number (JFloat (SFabs float_minus_2_3)) 2 false = Ok "2.30"
  /\ PyStr.free_of "-" "2.30" = true
  /\ exists price_s glyph market_cap_s,
       details_message "bitcoin" "usd" sample_detail
       = Ok (detail_text "bitcoin" "usd" price_s glyph "2.30" market_cap_s).
Proof.
  split; [reflexivity|].
  destruct (change_figure_has_no_sign (JFloat float_minus_2_3)
              (JFloat (SFabs float_minus_2_3)) "2.30" eq_refl eq_refl)
    as [Hfree Htext].
  split; [exact Hfree|].
  destruct (Htext "bitcoin" "usd" sample_detail (JFloat float_65000_5)
              (JInt 1280000000000)
              (detail_text "bitcoin" "usd" "65,000.50" glyph_down "2.30"
                           "1,280,000,000,000")
              eq_refl eq_refl)
    as [ps [g [ms H]]].
  exists ps, g, ms. now rewrite <- H.
Defined.

(** X20.  The currency is never checked against [SUPPORTED_CURRENCIES]:
    for any code at all, a detail with the three numeric fields of that
    code is rendered as the detail text, and a press on [currency:<code>]
    that gets such a detail returns to [MAIN_MENU]. *)
Theorem any_currency_is_rendered
        (net : request -> http_outcome) (jre : bool) (repr : json -> string)
        (payload : string) (s : store)
        (details price change_24h market_cap : json) :
  let crypto_id := dict_get (user_data s) "crypto" "bitcoin" in
  let currency := hd EmptyString (PyStr.split ":" payload) in
  detail_fields currency details = Some (price, change_24h, market_cap) ->
  is_number price = true ->
  is_number change_24h = true ->
  is_number market_cap = true ->
  (exists price_s change_s market_cap_s,
      details_message crypto_id currency details
      = Ok (detail_text crypto_id currency price_s
                        (glyph_of (number_sign change_24h))
                        change_s market_cap_s))
  /\ (snd (get_crypto_details net jre crypto_id currency empty_store)
      = Ok details ->
      snd (button_click net jre repr
             (CallbackQuery ("currency:" ++ payload)) s)
      = Ok (Some MAIN_MENU)).
Proof.
  cbv zeta. intros Hf Hp Hc Hm.
  set (id := dict_get (user_data s) "crypto" "bitcoin").
  set (cur := hd EmptyString (PyStr.split ":" payload)) in *.
  assert (Hmsg : exists ps cs ms,
             details_message id cur details
             = Ok (detail_text id cur ps (glyph_of (number_sign change_24h))
                               cs ms)).
  { destruct details as [| | | | | |d]; try discriminate.
    cbn [detail_fields] in Hf.
    destruct (dict_find d cur) as [p|] eqn:Ep; [|discriminate].
    destruct (dict_find d (cur ++ "_24h_change")) as [c|] eqn:Ec;
      [|discriminate].
    destruct (dict_find d (cur ++ "_market_cap")) as [m|] eqn:Em;
      [|discriminate].
    injection Hf as -> -> ->.
    destruct (CaseFacts.number_formats price 2 true Hp) as [ps [Eps _]].
    destruct (CaseFacts.abs_number change_24h Hc) as [w [Ew Hw]].
    destruct (CaseFacts.number_formats w 2 false Hw) as [cs [Ecs _]].
    destruct (CaseFacts.number_formats market_cap 0 true Hm) as [ms [Ems _]].
    exists ps, cs, ms. unfold details_message.
    destruct d as [|kv d']; [discriminate|].
    cbn [Py.truthy Py.get rbind]. unfold dict_get. rewrite Ep, Ec, Em.
    rewrite (CaseFacts.change_symbol_of_number _ Hc). cbn [rbind].
    rewrite Eps, Ew. cbn [rbind]. rewrite Ecs. cbn [rbind]. rewrite Ems.
    reflexivity. }
  split; [exact Hmsg|]. intros Hd.
  destruct Hmsg as [ps [cs [ms Hmsg]]].
  destruct (button_click_currency_outcome net jre repr payload s details Hd)
    as [s' [Hb _]].
  rewrite Hb. fold id cur. now rewrite Hmsg.
Qed.

Lemma any_currency_is_rendered_witness :
  snd (button_click
         (net_serving (JObj [("btc", JInt 1); ("btc_24h_change", JInt 0);
                             ("btc_market_cap", JInt 21000000)]))
         true repr_none (CallbackQuery "currency:btc") empty_store)
  = Ok (Some MAIN_MENU).
Proof.
  apply (proj2 (any_currency_is_rendered
                  (net_serving (JObj [("btc", JInt 1);
                                      ("btc_24h_change", JInt 0);
                                      ("btc_market_cap", JInt 21000000)]))
                  true repr_none "btc" empty_store
                  (JObj [("btc", JInt 1); ("btc_24h_change", JInt 0);
                         ("btc_market_cap", JInt 21000000)])
                  (JInt 1) (JInt 0) (JInt 21000000)
                  eq_refl eq_refl eq_refl eq_refl));
    reflexivity.
Defined.
